(** * Entrolytics node SDK: the tracking client and its error taxonomy

    A shallow embedding of [Entrolytics.ts] and [errors.ts].  Objects with
    optional keys are records of own properties, open property maps are
    finite maps, JavaScript numbers are binary64 floats, and the asynchronous
    methods are computations over the client state that record the timer and
    network effects they perform and end in a value or a thrown exception. *)

From Stdlib Require Import ZArith String Ascii List Floats Bool Lia.
From stdpp Require Import gmap strings.

Set Warnings "-register-all".

Local Open Scope string_scope.
Local Open Scope Z_scope.

(** ** JavaScript values *)

(** An own property of an object: the key is missing ([None]), or it is
    there and holds a value or [undefined] ([Some None]).  The difference
    shows in a spread, which copies every own key, also one holding
    [undefined]. *)
Definition field (A : Type) : Type := option (option A).

Definition missing {A : Type} : field A := None.
Definition given {A : Type} (v : option A) : field A := Some v.

(** [o.k]: a missing key reads as [undefined]. *)
Definition read {A : Type} (f : field A) : option A :=
  match f with
  | Some v => v
  | None => None
  end.

(** One key of [{...base, ...over}]. *)
Definition spread {A : Type} (base over : field A) : field A :=
  match over with
  | Some v => Some v
  | None => base
  end.

Definition truthy_string (s : string) : bool :=
  match s with
  | EmptyString => false
  | String _ _ => true
  end.

Definition truthy_number (x : float) : bool :=
  negb (PrimFloat.eqb x 0 || PrimFloat.is_nan x).

(** Truthiness of a value that may be [undefined]. *)
Definition truthy {A : Type} (t : A -> bool) (v : option A) : bool :=
  match v with
  | Some a => t a
  | None => false
  end.

(** [a || b]. *)
Definition or_else {A : Type} (t : A -> bool) (a b : option A) : option A :=
  if truthy t a then a else b.

(** The values of [EventData], of [IdentifyOptions] and of the property bag:
    [string | number | boolean | Date | null | undefined]. *)
Inductive Scalar : Type :=
  | SUndefined
  | SNull
  | SBoolean (b : bool)
  | SNumber (x : float)
  | SString (s : string)
  | SDate (time : float).

Definition of_optional_string (v : option string) : Scalar :=
  match v with
  | Some s => SString s
  | None => SUndefined
  end.

(** A value of type [unknown] as far as the client meets one: a parsed JSON
    body, a response text, an attribution record. *)
Inductive Json : Type :=
  | JNull
  | JBool (b : bool)
  | JNum (x : float)
  | JStr (s : string)
  | JArr (items : list Json)
  | JObj (members : list (string * Json)).

(** *** [parseInt(s, 10)] *)

(** The nearest binary64 number to an integer, [-0] for a negative zero. *)
Definition number_of_Z (negative : bool) (z : Z) : float :=
  SF2Prim (binary_normalize prec emax z 0 negative).

(** White space and line terminators among the code units below 256. *)
Definition is_white_space (c : ascii) : bool :=
  let n := Z.of_nat (nat_of_ascii c) in
  ((9 <=? n) && (n <=? 13)) || (n =? 32) || (n =? 160).

Fixpoint trim_start (s : string) : string :=
  match s with
  | String c rest => if is_white_space c then trim_start rest else s
  | EmptyString => s
  end.

Definition digit_value (c : ascii) : option Z :=
  let n := Z.of_nat (nat_of_ascii c) in
  if (48 <=? n) && (n <=? 57) then Some (n - 48) else None.

(** The value of the longest prefix of decimal digits, [None] when the
    prefix is empty. *)
Fixpoint leading_digits (acc : option Z) (s : string) : option Z :=
  match s with
  | String c rest =>
      match digit_value c with
      | Some d => leading_digits (Some (10 * default 0 acc + d)) rest
      | None => acc
      end
  | EmptyString => acc
  end.

(** The sign and the rest of a trimmed numeral. *)
Definition strip_sign (s : string) : bool * string :=
  match s with
  | String "-" rest => (true, rest)
  | String "+" rest => (false, rest)
  | _ => (false, s)
  end.

(** The mathematical integer [parseInt(s, 10)] reads, if any. *)
Definition parse_integer (s : string) : option (bool * Z) :=
  let '(negative, digits) := strip_sign (trim_start s) in
  match leading_digits None digits with
  | Some m => Some (negative, if negative then - m else m)
  | None => None
  end.

Definition parseInt (s : string) : float :=
  match parse_integer s with
  | Some (negative, z) => number_of_Z negative z
  | None => nan
  end.

(** Decimal digits of a status code, as a template literal prints them. *)
Definition digit_char (d : Z) : ascii := ascii_of_nat (Z.to_nat (48 + d)).

Fixpoint decimal_digits (fuel : nat) (n : Z) (acc : string) : string :=
  match fuel with
  | O => acc
  | S fuel' =>
      let acc' := String (digit_char (n mod 10)) acc in
      if n / 10 =? 0 then acc' else decimal_digits fuel' (n / 10) acc'
  end.

Definition string_of_status (n : Z) : string :=
  if n <? 0 then "-" +:+ decimal_digits (Z.to_nat (- n)) (- n) EmptyString
  else decimal_digits (S (Z.to_nat n)) n EmptyString.

(** ** The platform: responses and foreign exceptions *)

(** A thrown value that is not one of the SDK's errors: what [fetch],
    [response.json()] or [response.text()] reject with.  The [catch] clause
    of [send] asks whether it is an [Error], whether it is a [TypeError] and
    for its name. *)
Record Foreign : Type := mkForeign {
  foreign_instanceof_Error : bool;
  foreign_instanceof_TypeError : bool;
  foreign_name : string;
  foreign_message : string
}.

(** The [DOMException] a fetch rejects with once its signal is aborted. *)
Definition AbortError : Foreign :=
  mkForeign true false "AbortError" "This operation was aborted".

Definition TypeError (message : string) : Foreign :=
  mkForeign true true "TypeError" message.

Definition SyntaxError (message : string) : Foreign :=
  mkForeign true false "SyntaxError" message.

(** A [Response] as the client uses it: [ok], [status], [headers.get(name)]
    and how [json()] and [text()] settle. *)
Record Response : Type := mkResponse {
  ok : bool;
  status : Z;
  headers_get : string -> option string;
  json : Foreign + Json;
  text : Foreign + string
}.

(** ** errors.ts *)

Section Platform.

(** [Number::toString], used by the template literal of the timeout
    message. *)
Variable Number_toString : float -> string.

Record EntrolyticsError : Type := mkError {
  name : string;
  message : string;
  code : string;
  statusCode : option Z;
  originalError : option Foreign
}.

(** The base constructor. *)
Definition new_EntrolyticsError (message code : string)
    (statusCode : option Z) (originalError : option Foreign) : EntrolyticsError :=
  mkError "EntrolyticsError" message code statusCode originalError.

(** [this.name = n] in a subclass constructor. *)
Definition named (n : string) (e : EntrolyticsError) : EntrolyticsError :=
  mkError n (message e) (code e) (statusCode e) (originalError e).

(** Everything a method can throw: the SDK's classes with the fields each
    adds, or a foreign value. *)
Inductive Thrown : Type :=
  | Plain (base : EntrolyticsError)
  | Configuration (base : EntrolyticsError)
  | Validation (base : EntrolyticsError) (field_name : option string) (value : option Json)
  | Api (base : EntrolyticsError) (response : option Response) (body : option Json)
  | Timeout (base : EntrolyticsError) (timeoutMs : float)
  | RateLimit (base : EntrolyticsError) (retryAfter : option float)
  | Network (base : EntrolyticsError)
  | Thrown_foreign (e : Foreign).

Definition ConfigurationError (message : string) (field_name : option string) : Thrown :=
  Configuration
    (named "ConfigurationError"
       (new_EntrolyticsError
          (match field_name with
           | Some f => if truthy_string f then message +:+ ": '" +:+ f +:+ "' is required" else message
           | None => message
           end)
          "CONFIGURATION_ERROR" None None)).

Definition ValidationError (message : string) (field_name : option string)
    (value : option Json) : Thrown :=
  Validation
    (named "ValidationError" (new_EntrolyticsError message "VALIDATION_ERROR" None None))
    field_name value.

Definition ApiError (message : string) (statusCode : Z) (response : option Response)
    (body : option Json) : Thrown :=
  Api (named "ApiError" (new_EntrolyticsError message "API_ERROR" (Some statusCode) None))
    response body.

Definition TimeoutError (timeoutMs : float) : Thrown :=
  Timeout
    (named "TimeoutError"
       (new_EntrolyticsError
          ("Request timed out after " +:+ Number_toString timeoutMs +:+ "ms")
          "TIMEOUT_ERROR" None None))
    timeoutMs.

(** The message defaults to ['Rate limit exceeded'] when it is [undefined]. *)
Definition RateLimitError (message : option string) (retryAfter : option float) : Thrown :=
  RateLimit
    (named "RateLimitError"
       (new_EntrolyticsError (default "Rate limit exceeded" message)
          "RATE_LIMIT_ERROR" (Some 429) None))
    retryAfter.

Definition NetworkError (message : string) (originalError : option Foreign) : Thrown :=
  Network
    (named "NetworkError" (new_EntrolyticsError message "NETWORK_ERROR" None originalError)).

(** The [EntrolyticsError] part of a thrown value, if it is one. *)
Definition base_of (e : Thrown) : option EntrolyticsError :=
  match e with
  | Plain b | Configuration b | Validation b _ _ | Api b _ _
  | Timeout b _ | RateLimit b _ | Network b => Some b
  | Thrown_foreign _ => None
  end.

Definition isEntrolyticsError (e : Thrown) : bool :=
  match e with Thrown_foreign _ => false | _ => true end.

Definition isApiError (e : Thrown) : bool :=
  match e with Api _ _ _ => true | _ => false end.

Definition isValidationError (e : Thrown) : bool :=
  match e with Validation _ _ _ => true | _ => false end.

Definition isConfigurationError (e : Thrown) : bool :=
  match e with Configuration _ => true | _ => false end.

Definition isTimeoutError (e : Thrown) : bool :=
  match e with Timeout _ _ => true | _ => false end.

Definition isRateLimitError (e : Thrown) : bool :=
  match e with RateLimit _ _ => true | _ => false end.

Definition isNetworkError (e : Thrown) : bool :=
  match e with Network _ => true | _ => false end.

(** [ApiError.isClientError] and [ApiError.isServerError]. *)
Definition isClientError (e : EntrolyticsError) : bool :=
  match statusCode e with
  | Some c => (400 <=? c) && (c <? 500)
  | None => false
  end.

Definition isServerError (e : EntrolyticsError) : bool :=
  match statusCode e with
  | Some c => 500 <=? c
  | None => false
  end.

(** [error instanceof Error], [error instanceof TypeError] and [error.name]
    for any thrown value; the SDK's classes extend [Error]. *)
Definition instanceof_Error (e : Thrown) : bool :=
  match e with
  | Thrown_foreign f => foreign_instanceof_Error f
  | _ => true
  end.

Definition instanceof_TypeError (e : Thrown) : bool :=
  match e with
  | Thrown_foreign f => foreign_instanceof_TypeError f
  | _ => false
  end.

Definition error_name (e : Thrown) : string :=
  match e with
  | Thrown_foreign f => foreign_name f
  | Plain b | Configuration b | Validation b _ _ | Api b _ _
  | Timeout b _ | RateLimit b _ | Network b => name b
  end.

Definition error_message (e : Thrown) : string :=
  match e with
  | Thrown_foreign f => foreign_message f
  | Plain b | Configuration b | Validation b _ _ | Api b _ _
  | Timeout b _ | RateLimit b _ | Network b => message b
  end.

(** ** Entrolytics.ts: the data model *)

Inductive Endpoint : Type := Standard | Edge | Native.

Record EntrolyticsOptions : Type := mkOptions {
  opt_hostUrl : field string;
  opt_websiteId : field string;
  opt_sessionId : field string;
  opt_userAgent : field string;
  opt_timeout : field float;
  opt_endpoint : field Endpoint;
  opt_deployId : field string;
  opt_gitSha : field string;
  opt_gitBranch : field string
}.

(** [{}]. *)
Definition no_options : EntrolyticsOptions :=
  mkOptions missing missing missing missing missing missing missing missing missing.

(** [{...base, ...over}] on options. *)
Definition spread_options (base over : EntrolyticsOptions) : EntrolyticsOptions :=
  mkOptions
    (spread (opt_hostUrl base) (opt_hostUrl over))
    (spread (opt_websiteId base) (opt_websiteId over))
    (spread (opt_sessionId base) (opt_sessionId over))
    (spread (opt_userAgent base) (opt_userAgent over))
    (spread (opt_timeout base) (opt_timeout over))
    (spread (opt_endpoint base) (opt_endpoint over))
    (spread (opt_deployId base) (opt_deployId over))
    (spread (opt_gitSha base) (opt_gitSha over))
    (spread (opt_gitBranch base) (opt_gitBranch over)).

(** [EventData], and the property bag [Record<string, unknown>] whose values
    the setters restrict to the same scalars. *)
Abbreviation EventData := (gmap string Scalar).

Record EntrolyticsPayload : Type := mkPayload {
  p_website : string;
  p_session : field string;
  p_hostname : field string;
  p_language : field string;
  p_referrer : field string;
  p_screen : field string;
  p_title : field string;
  p_url : field string;
  p_name : field string;
  p_data : field EventData
}.

(** [TrackPageOptions] and its extension [TrackEventOptions], which adds
    [name] and [data]; a caller written in JavaScript can leave out any key,
    and the methods test [url] and [name] for that. *)
Record TrackOptions : Type := mkTrackOptions {
  t_url : field string;
  t_title : field string;
  t_referrer : field string;
  t_hostname : field string;
  t_language : field string;
  t_screen : field string;
  t_name : field string;
  t_data : field EventData
}.

(** [IdentifyOptions]: the declared key [sessionId], and in [id_others] the
    other keys, those of the index signature. *)
Record IdentifyOptions : Type := mkIdentifyOptions {
  id_sessionId : field string;
  id_others : gmap string Scalar
}.

Definition no_identify_options : IdentifyOptions := mkIdentifyOptions missing ∅.

(** The own keys of an [IdentifyOptions] object. *)
Definition identify_entries (o : IdentifyOptions) : gmap string Scalar :=
  match id_sessionId o with
  | Some v => <["sessionId" := of_optional_string v]> (id_others o)
  | None => delete "sessionId" (id_others o)
  end.

Inductive WebVitalMetric : Type := LCP | INP | CLS | TTFB | FCP.

Inductive WebVitalRating : Type := Good | NeedsImprovement | Poor.

Inductive NavigationType : Type :=
  | Navigate | Reload | BackForward | BackForwardCache | Prerender | Restore.

Record TrackVitalOptions : Type := mkVital {
  v_metric : WebVitalMetric;
  v_value : float;
  v_rating : WebVitalRating;
  v_delta : field float;
  v_id : field string;
  v_navigationType : field NavigationType;
  v_attribution : field (list (string * Json));
  v_url : field string;
  v_path : field string
}.

Record TrackVitalsBatchOptions : Type := mkVitalsBatch {
  vb_vitals : list TrackVitalOptions;
  vb_url : field string;
  vb_path : field string
}.

Inductive FormEventType : Type :=
  | FormStart | FieldFocus | FieldBlur | FieldError | FormSubmit | FormAbandon.

Record TrackFormOptions : Type := mkForm {
  f_eventType : FormEventType;
  f_formId : string;
  f_formName : field string;
  f_urlPath : string;
  f_fieldName : field string;
  f_fieldType : field string;
  f_fieldIndex : field float;
  f_timeOnField : field float;
  f_timeSinceStart : field float;
  f_errorMessage : field string;
  f_success : field bool
}.

Record TrackFormBatchOptions : Type := mkFormBatch {
  fb_events : list TrackFormOptions
}.

(** [Partial<DeploymentInfo>]. *)
Record DeploymentInfo : Type := mkDeployment {
  d_deployId : field string;
  d_gitSha : field string;
  d_gitBranch : field string;
  d_deployUrl : field string
}.

Definition spread_deployment (base over : DeploymentInfo) : DeploymentInfo :=
  mkDeployment
    (spread (d_deployId base) (d_deployId over))
    (spread (d_gitSha base) (d_gitSha over))
    (spread (d_gitBranch base) (d_gitBranch over))
    (spread (d_deployUrl base) (d_deployUrl over)).

Inductive SendType : Type := Event | Identify.

(** The global [process], when the runtime has one. *)
Record Process : Type := mkProcess {
  env : gmap string string;
  version : string
}.

Variable process : option Process.

(** The class instance. *)
Record Entrolytics : Type := mkClient {
  options : EntrolyticsOptions;
  properties : gmap string Scalar;
  deploymentInfo : DeploymentInfo
}.

(** ** Requests, effects and the computation type *)

(** The value handed to [JSON.stringify] for the request body. *)
Inductive RequestBody : Type :=
  | SendBody (type : SendType) (payload : EntrolyticsPayload)
  | VitalBody (website : string) (vital : TrackVitalOptions)
  | VitalsBatchBody (website : string) (vitals : list TrackVitalOptions)
  | FormBody (website : string) (form : TrackFormOptions)
  | FormBatchBody (website : string) (events : list TrackFormOptions).

Record Request : Type := mkRequest {
  req_url : string;
  req_method : string;
  req_headers : list (string * string);
  req_body : RequestBody
}.

(** How the race between the request and the abort timer of a call ends. *)
Inductive FetchOutcome : Type :=
  | Responds (response : Response)
      (** the response arrives before the timer fires *)
  | TimerFires
      (** the timer fires first: its callback aborts the controller and the
          fetch rejects with an [AbortError] *)
  | Rejects (e : Foreign)
      (** the fetch rejects by itself, with a [TypeError] on a network
          failure *).

(** The network as one call sees it. *)
Definition Net : Type := Request -> FetchOutcome.

Inductive Effect : Type :=
  | SetTimeout (delay : float)
  | Fetch (request : Request)
  | Abort
  | ClearTimeout.

Record Run (A : Type) : Type := mkRun {
  final : Entrolytics;
  effects : list Effect;
  outcome : Thrown + A
}.

Arguments mkRun {A} _ _ _.
Arguments final {A} _.
Arguments effects {A} _.
Arguments outcome {A} _.

(** An asynchronous method: from the network and the client before the call
    to the client after it, the effects performed and the value or the
    exception the promise settles with. *)
Definition M (A : Type) : Type := Net -> Entrolytics -> Run A.

Definition ret {A : Type} (a : A) : M A :=
  fun _ this => mkRun this [] (inr a).

Definition throw {A : Type} (e : Thrown) : M A :=
  fun _ this => mkRun this [] (inl e).

Definition bind {A B : Type} (m : M A) (k : A -> M B) : M B :=
  fun net this =>
    let r := m net this in
    match outcome r with
    | inl e => mkRun (final r) (effects r) (inl e)
    | inr a =>
        let r' := k a net (final r) in
        mkRun (final r') (effects r ++ effects r') (outcome r')
    end.

#[local] Instance M_ret : MRet M := @ret.
#[local] Instance M_bind : MBind M := fun A B k m => bind m k.

(** [try { body } catch (error) { handler error }]. *)
Definition try_catch {A : Type} (body : M A) (handler : Thrown -> M A) : M A :=
  fun net this =>
    let r := body net this in
    match outcome r with
    | inl e =>
        let r' := handler e net (final r) in
        mkRun (final r') (effects r ++ effects r') (outcome r')
    | inr _ => r
    end.

(** [try { body } finally { cleanup }]: the cleanup runs on every exit and
    the block settles as the body did, unless the cleanup throws. *)
Definition try_finally {A : Type} (body : M A) (cleanup : M unit) : M A :=
  fun net this =>
    let r := body net this in
    let r' := cleanup net (final r) in
    mkRun (final r') (effects r ++ effects r')
      (match outcome r' with
       | inl e => inl e
       | inr _ => outcome r
       end).

Definition get_this : M Entrolytics :=
  fun _ this => mkRun this [] (inr this).

Definition set_this (this' : Entrolytics) : M unit :=
  fun _ _ => mkRun this' [] (inr tt).

Definition perform (e : Effect) : M unit :=
  fun _ this => mkRun this [e] (inr tt).

(** [await] of a promise that has settled. *)
Definition await {A : Type} (settled : Foreign + A) : M A :=
  match settled with
  | inl e => throw (Thrown_foreign e)
  | inr a => ret a
  end.

(** [await fetch(url, { ..., signal })] under the armed timer. *)
Definition fetch (request : Request) : M Response :=
  fun net this =>
    match net request with
    | Responds response => mkRun this [Fetch request] (inr response)
    | TimerFires => mkRun this [Fetch request; Abort] (inl (Thrown_foreign AbortError))
    | Rejects e => mkRun this [Fetch request] (inl (Thrown_foreign e))
    end.

(** [if (!v) throw e], after which [v] is a non-empty string. *)
Definition required (v : option string) (e : Thrown) : M string :=
  match v with
  | Some s => if truthy_string s then ret s else throw e
  | None => throw e
  end.

(** ** Entrolytics.ts: the functions and the class *)

Definition env_var (e : gmap string string) (k : string) : option string := e !! k.

Definition detectDeploymentInfo : DeploymentInfo :=
  let e :=
    match process with
    | Some p => env p
    | None => ∅
    end in
  let or := or_else truthy_string in
  mkDeployment
    (given (or (or (or (env_var e "VERCEL_DEPLOYMENT_ID") (env_var e "DEPLOY_ID"))
                  (env_var e "CF_PAGES_COMMIT_SHA")) None))
    (given (or (or (or (or (env_var e "VERCEL_GIT_COMMIT_SHA") (env_var e "COMMIT_REF"))
                      (env_var e "CF_PAGES_COMMIT_SHA")) (env_var e "GITHUB_SHA")) None))
    (given (or (or (or (or (env_var e "VERCEL_GIT_COMMIT_REF") (env_var e "BRANCH"))
                      (env_var e "CF_PAGES_BRANCH")) (env_var e "GITHUB_REF_NAME")) None))
    (given (if truthy truthy_string (env_var e "VERCEL_URL")
            then Some ("https://" +:+ default EmptyString (env_var e "VERCEL_URL"))
            else or (or (env_var e "DEPLOY_URL") (env_var e "CF_PAGES_URL")) None)).

Definition getVersion : string :=
  match process with
  | Some p => if truthy_string (version p) then version p else "unknown"
  | None => "unknown"
  end.

(** [new Entrolytics(options)]; the argument defaults to [{}]. *)
Definition constructor (arg : option EntrolyticsOptions) : Entrolytics :=
  let detectedDeployment := detectDeploymentInfo in
  mkClient
    (spread_options
       (mkOptions missing missing missing missing
          (given (Some 10000%float)) (given (Some Standard))
          (given (read (d_deployId detectedDeployment)))
          (given (read (d_gitSha detectedDeployment)))
          (given (read (d_gitBranch detectedDeployment))))
       (default no_options arg))
    ∅
    detectedDeployment.

Definition init (opts : EntrolyticsOptions) (this : Entrolytics) : Entrolytics :=
  mkClient (spread_options (options this) opts) (properties this) (deploymentInfo this).

Definition getEndpointPath (this : Entrolytics) : string :=
  match read (opt_endpoint (options this)) with
  | Some Edge => "/api/send-edge"
  | Some Native => "/api/send-native"
  | Some Standard | None => "/api/send"
  end.

Definition hostUrl_required : Thrown :=
  ConfigurationError "hostUrl is required. Call init() with hostUrl first." (Some "hostUrl").

Definition websiteId_required : Thrown :=
  ConfigurationError "websiteId is required. Call init() with websiteId first." (Some "websiteId").

(** The [catch] clause of [send]. *)
Definition send_catch (timeout : float) (error : Thrown) : M Response :=
  if isConfigurationError error || isApiError error || isRateLimitError error
  then throw error
  else if instanceof_Error error && String.eqb (error_name error) "AbortError"
  then throw (TimeoutError timeout)
  else if instanceof_TypeError error
  then throw (NetworkError ("Network request failed: " +:+ error_message error)
                (match error with Thrown_foreign e => Some e | _ => None end))
  else throw error.

(** What [send] does with a response that is not [ok]. *)
Definition send_not_ok (response : Response) : M Response :=
  if status response =? 429
  then
    let retryAfter := headers_get response "Retry-After" in
    throw (RateLimitError (Some "Rate limit exceeded")
             (if truthy truthy_string retryAfter
              then Some (parseInt (default EmptyString retryAfter))
              else None))
  else
    body ← try_catch (await (json response))
              (fun _ => t ← await (text response); ret (JStr t));
    throw (ApiError ("HTTP error! status: " +:+ string_of_status (status response))
             (status response) (Some response) (Some body)).

(** The request of [send]: the URL, the two headers and the body
    [{ type, payload }]. *)
Definition send_request (this : Entrolytics) (hostUrl : string)
    (payload : EntrolyticsPayload) (type : SendType) : Request :=
  let userAgent := read (opt_userAgent (options this)) in
  let endpointPath := getEndpointPath this in
  mkRequest (hostUrl +:+ endpointPath) "POST"
    [("Content-Type", "application/json");
     ("User-Agent",
      if truthy truthy_string userAgent then default EmptyString userAgent
      else "Mozilla/5.0 EntrolyticsNG/" +:+ getVersion)]
    (SendBody type payload).

(** [send(payload, type = 'event')]. *)
Definition send (payload : EntrolyticsPayload) (type : option SendType) : M Response :=
  this ← get_this;
  let timeout := default 10000%float (read (opt_timeout (options this))) in
  hostUrl ← required (read (opt_hostUrl (options this))) hostUrl_required;
  perform (SetTimeout timeout);;
  try_finally
    (try_catch
       (response ← fetch (send_request this hostUrl payload (default Event type));
        if negb (ok response) then send_not_ok response else ret response)
       (send_catch timeout))
    (perform ClearTimeout).

(** [{ website: websiteId, ...options }]. *)
Definition payload_of_options (websiteId : string) (o : TrackOptions) : EntrolyticsPayload :=
  mkPayload websiteId missing (t_hostname o) (t_language o) (t_referrer o)
    (t_screen o) (t_title o) (t_url o) (t_name o) (t_data o).

Definition trackPageView (opts : TrackOptions) : M Response :=
  this ← get_this;
  websiteId ← required (read (opt_websiteId (options this))) websiteId_required;
  if negb (truthy truthy_string (read (t_url opts)))
  then throw (ValidationError "url is required for page view tracking" (Some "url") None)
  else send (payload_of_options websiteId opts) None.

Definition trackEvent (opts : TrackOptions) : M Response :=
  this ← get_this;
  websiteId ← required (read (opt_websiteId (options this))) websiteId_required;
  if negb (truthy truthy_string (read (t_name opts)))
  then throw (ValidationError "name is required for event tracking" (Some "name") None)
  else send (payload_of_options websiteId opts) None.

(** The first argument of [track]: [string | TrackPageOptions |
    TrackEventOptions]. *)
Inductive TrackArg : Type :=
  | EventName (event : string)
  | EventOptions (event : TrackOptions).

(** The payload [track] builds; an [EventData] object is truthy, so
    [eventData || event.data] is [eventData] unless it is [undefined]. *)
Definition track_payload (websiteId : string) (event : TrackArg)
    (eventData : option EventData) : EntrolyticsPayload :=
  match event with
  | EventName n =>
      mkPayload websiteId missing missing missing missing missing missing missing
        (given (Some n)) (given eventData)
  | EventOptions o =>
      mkPayload websiteId missing (t_hostname o) (t_language o) (t_referrer o)
        (t_screen o) (t_title o) (t_url o) (t_name o)
        (given (match eventData with
                | Some d => Some d
                | None => read (t_data o)
                end))
  end.

Definition track (event : TrackArg) (eventData : option EventData) : M Response :=
  this ← get_this;
  websiteId ← required (read (opt_websiteId (options this))) websiteId_required;
  send (track_payload websiteId event eventData) None.

(** [identify(properties = {})]. *)
Definition identify (arg : option IdentifyOptions) : M Response :=
  let props := default no_identify_options arg in
  this ← get_this;
  let sessionId := read (opt_sessionId (options this)) in
  websiteId ← required (read (opt_websiteId (options this))) websiteId_required;
  set_this (mkClient (options this)
              (identify_entries props ∪ properties this)
              (deploymentInfo this));;
  this' ← get_this;
  send
    (mkPayload websiteId
       (given (or_else truthy_string (read (id_sessionId props)) sessionId))
       missing missing missing missing missing missing missing
       (given (Some (properties this'))))
    (Some Identify).

(** [this.properties[key] = value].  On an ordinary object the key
    ["__proto__"] is the prototype accessor: assigning a primitive does
    nothing, assigning [null] or a [Date] changes the prototype, and no own
    key appears in either case. *)
Definition setProperty (key : string) (value : Scalar) (this : Entrolytics) : Entrolytics :=
  mkClient (options this)
    (if String.eqb key "__proto__" then properties this
     else <[key := value]> (properties this))
    (deploymentInfo this).

Definition setProperties (props : gmap string Scalar) (this : Entrolytics) : Entrolytics :=
  mkClient (options this) (props ∪ properties this) (deploymentInfo this).

Definition getProperties (this : Entrolytics) : gmap string Scalar := properties this.

Definition reset (this : Entrolytics) : Entrolytics :=
  mkClient (options this) ∅ (deploymentInfo this).

Definition clearProperty (key : string) (this : Entrolytics) : Entrolytics :=
  mkClient (options this) (delete key (properties this)) (deploymentInfo this).

(** The request of a collector: one header and the payload as body. *)
Definition collector_request (url : string) (body : RequestBody) : Request :=
  mkRequest url "POST" [("Content-Type", "application/json")] body.

(** [this.options.timeout || 10000]. *)
Definition collector_timeout (this : Entrolytics) : float :=
  let timeout := read (opt_timeout (options this)) in
  if truthy truthy_number timeout then default 10000%float timeout else 10000%float.

(** The body of every collector after its payload is built: arm the timer,
    post, reject a response that is not [ok], clear the timer. *)
Definition collect (url : string) (body : RequestBody) : M Response :=
  this ← get_this;
  perform (SetTimeout (collector_timeout this));;
  try_finally
    (response ← fetch (collector_request url body);
     if negb (ok response)
     then throw (ApiError ("HTTP error! status: " +:+ string_of_status (status response))
                   (status response) (Some response) None)
     else ret response)
    (perform ClearTimeout).

(** The object literal of [trackVital]: every key is there. *)
Definition vital_payload (o : TrackVitalOptions) : TrackVitalOptions :=
  mkVital (v_metric o) (v_value o) (v_rating o)
    (given (read (v_delta o))) (given (read (v_id o)))
    (given (read (v_navigationType o))) (given (read (v_attribution o)))
    (given (read (v_url o))) (given (read (v_path o))).

Definition trackVital (opts : TrackVitalOptions) : M Response :=
  this ← get_this;
  websiteId ← required (read (opt_websiteId (options this))) websiteId_required;
  hostUrl ← required (read (opt_hostUrl (options this))) hostUrl_required;
  collect (hostUrl +:+ "/api/collect/vitals") (VitalBody websiteId (vital_payload opts)).

(** [{ ...v, url: options.url, path: options.path }]. *)
Definition batch_entry (opts : TrackVitalsBatchOptions) (v : TrackVitalOptions) : TrackVitalOptions :=
  mkVital (v_metric v) (v_value v) (v_rating v) (v_delta v) (v_id v)
    (v_navigationType v) (v_attribution v)
    (given (read (vb_url opts))) (given (read (vb_path opts))).

Definition trackVitalsBatch (opts : TrackVitalsBatchOptions) : M Response :=
  this ← get_this;
  websiteId ← required (read (opt_websiteId (options this))) websiteId_required;
  hostUrl ← required (read (opt_hostUrl (options this))) hostUrl_required;
  collect (hostUrl +:+ "/api/collect/vitals")
    (VitalsBatchBody websiteId (List.map (batch_entry opts) (vb_vitals opts))).

Definition trackForm (opts : TrackFormOptions) : M Response :=
  this ← get_this;
  websiteId ← required (read (opt_websiteId (options this))) websiteId_required;
  hostUrl ← required (read (opt_hostUrl (options this))) hostUrl_required;
  collect (hostUrl +:+ "/api/collect/forms") (FormBody websiteId opts).

Definition trackFormBatch (opts : TrackFormBatchOptions) : M Response :=
  this ← get_this;
  websiteId ← required (read (opt_websiteId (options this))) websiteId_required;
  hostUrl ← required (read (opt_hostUrl (options this))) hostUrl_required;
  collect (hostUrl +:+ "/api/collect/forms") (FormBatchBody websiteId (fb_events opts)).

Definition setDeployment (deployment : DeploymentInfo) (this : Entrolytics) : Entrolytics :=
  let o := options this in
  mkClient
    (mkOptions (opt_hostUrl o) (opt_websiteId o) (opt_sessionId o) (opt_userAgent o)
       (opt_timeout o) (opt_endpoint o)
       (given (or_else truthy_string (read (d_deployId deployment)) (read (opt_deployId o))))
       (given (or_else truthy_string (read (d_gitSha deployment)) (read (opt_gitSha o))))
       (given (or_else truthy_string (read (d_gitBranch deployment)) (read (opt_gitBranch o)))))
    (properties this)
    (spread_deployment (deploymentInfo this) deployment).

Definition getDeployment (this : Entrolytics) : DeploymentInfo := deploymentInfo this.

(** ** Vocabulary of the statements *)

(** A configuration field holds the non-empty string [s]. *)
Definition configured (f : field string) (s : string) : Prop :=
  read f = Some s /\ truthy_string s = true.

(** A configuration field is absent, [undefined] or empty: what [!f]
    tests. *)
Definition unset (f : field string) : Prop :=
  truthy truthy_string (read f) = false.

(** A call that threw [e] at once: no effect, the client as it was. *)
Definition failed_fast {A : Type} (this : Entrolytics) (e : Thrown) : Run A :=
  mkRun this [] (inl e).

(** The bodies of the requests a run has put on the network. *)
Fixpoint dispatched (es : list Effect) : list RequestBody :=
  match es with
  | Fetch request :: rest => req_body request :: dispatched rest
  | _ :: rest => dispatched rest
  | [] => []
  end.

(** [JSON.stringify] writes a key when its value is not [undefined]. *)
Definition on_wire {A : Type} (f : field A) : bool :=
  match read f with
  | Some _ => true
  | None => false
  end.

(** [{ name: s }]. *)
Definition name_only (s : string) : TrackOptions :=
  mkTrackOptions missing missing missing missing missing missing (given (Some s)) missing.

(** The payload [identify] builds once the bag is merged. *)
Definition identify_payload (websiteId : string) (props : IdentifyOptions)
    (this : Entrolytics) (bag : gmap string Scalar) : EntrolyticsPayload :=
  mkPayload websiteId
    (given (or_else truthy_string (read (id_sessionId props))
              (read (opt_sessionId (options this)))))
    missing missing missing missing missing missing missing
    (given (Some bag)).

(** The client after [identify] has merged its argument. *)
Definition identified (props : IdentifyOptions) (this : Entrolytics) : Entrolytics :=
  mkClient (options this) (identify_entries props ∪ properties this) (deploymentInfo this).

(** One call on the client, with the network it meets when it is
    asynchronous. *)
Inductive Call : Type :=
  | CallInit (opts : EntrolyticsOptions)
  | CallSend (payload : EntrolyticsPayload) (type : option SendType) (net : Net)
  | CallTrackPageView (opts : TrackOptions) (net : Net)
  | CallTrackEvent (opts : TrackOptions) (net : Net)
  | CallTrack (event : TrackArg) (eventData : option EventData) (net : Net)
  | CallIdentify (arg : option IdentifyOptions) (net : Net)
  | CallSetProperty (key : string) (value : Scalar)
  | CallSetProperties (props : gmap string Scalar)
  | CallReset
  | CallClearProperty (key : string)
  | CallTrackVital (opts : TrackVitalOptions) (net : Net)
  | CallTrackVitalsBatch (opts : TrackVitalsBatchOptions) (net : Net)
  | CallTrackForm (opts : TrackFormOptions) (net : Net)
  | CallTrackFormBatch (opts : TrackFormBatchOptions) (net : Net)
  | CallSetDeployment (deployment : DeploymentInfo).

(** The client after a call, however the call settles. *)
Definition after (c : Call) (this : Entrolytics) : Entrolytics :=
  match c with
  | CallInit opts => init opts this
  | CallSend payload type net => final (send payload type net this)
  | CallTrackPageView opts net => final (trackPageView opts net this)
  | CallTrackEvent opts net => final (trackEvent opts net this)
  | CallTrack event eventData net => final (track event eventData net this)
  | CallIdentify arg net => final (identify arg net this)
  | CallSetProperty key value => setProperty key value this
  | CallSetProperties props => setProperties props this
  | CallReset => reset this
  | CallClearProperty key => clearProperty key this
  | CallTrackVital opts net => final (trackVital opts net this)
  | CallTrackVitalsBatch opts net => final (trackVitalsBatch opts net this)
  | CallTrackForm opts net => final (trackForm opts net this)
  | CallTrackFormBatch opts net => final (trackFormBatch opts net this)
  | CallSetDeployment deployment => setDeployment deployment this
  end.

Fixpoint after_all (cs : list Call) (this : Entrolytics) : Entrolytics :=
  match cs with
  | [] => this
  | c :: rest => after_all rest (after c this)
  end.

(** The calls that take the key [sessionId] out of the bag: [reset] and
    [clearProperty('sessionId')]. *)
Definition clears_sessionId (c : Call) : bool :=
  match c with
  | CallReset => true
  | CallClearProperty key => String.eqb key "sessionId"
  | _ => false
  end.

(** The bag has the key [sessionId]. *)
Definition has_sessionId (this : Entrolytics) : Prop :=
  is_Some (properties this !! "sessionId").

(** ** Sample values *)

(** The integer part of a finite number. *)
Definition integer_part (x : float) : Z :=
  match Prim2SF x with
  | S754_finite negative m e =>
      let magnitude := if 0 <=? e then Z.pos m * 2 ^ e else Z.pos m / 2 ^ (- e) in
      if negative then - magnitude else magnitude
  | _ => 0
  end.

(** [Number::toString] where it is plain decimal digits: on the integers
    below 10^21. *)
Definition print_integer (x : float) : string := string_of_status (integer_part x).

(** A Node runtime with no deployment variable set. *)
Definition node : option Process := Some (mkProcess ∅ "v24.1.0").

(** A client configured for a site, with a 50 ms timeout. *)
Definition site : Entrolytics :=
  mkClient
    (mkOptions (given (Some "https://collect.example")) (given (Some "site-1"))
       (given (Some "visit-7")) missing (given (Some 50%float)) (given (Some Standard))
       (given (Some "dpl_1")) (given (Some "abc123")) (given (Some "main")))
    ∅
    (mkDeployment (given (Some "dpl_1")) (given (Some "abc123")) (given (Some "main"))
       (given None)).

(** [new Entrolytics()] where nothing is detected: the default instance. *)
Definition fresh : Entrolytics :=
  mkClient
    (mkOptions missing missing missing missing (given (Some 10000%float))
       (given (Some Standard)) (given None) (given None) (given None))
    ∅
    (mkDeployment (given None) (given None) (given None) (given None)).

Definition lcp : TrackVitalOptions :=
  mkVital LCP 2500%float Good missing missing missing missing missing missing.

Definition signup_start : TrackFormOptions :=
  mkForm FormStart "signup-form" missing "/signup" missing missing missing missing missing
    missing missing.

(** A network that never answers. *)
Definition silence : Net := fun _ => TimerFires.

(** A network that answers every request with [response]. *)
Definition answers (response : Response) : Net := fun _ => Responds response.

Definition no_body : Foreign := SyntaxError "Unexpected end of JSON input".

Definition accepted : Response :=
  mkResponse true 200 (fun _ => None) (inr (JObj [("ok", JBool true)])) (inr "accepted").

(** A 429 whose [Retry-After] header is an HTTP date. *)
Definition retry_at_date : Response :=
  mkResponse false 429
    (fun name =>
       if String.eqb name "Retry-After" then Some "Wed, 21 Oct 2015 07:28:00 GMT"
       else None)
    (inl no_body) (inr EmptyString).

(** A 429 that asks for thirty seconds. *)
Definition retry_in_30 : Response :=
  mkResponse false 429
    (fun name => if String.eqb name "Retry-After" then Some "30" else None)
    (inl no_body) (inr EmptyString).

(** A 503 with an HTML body, as a fetch response behaves: [json()] reads the
    body and fails to parse it, after which [text()] finds the body used. *)
Definition unreadable_503 : Response :=
  mkResponse false 503 (fun _ => None)
    (inl (SyntaxError "Unexpected token '<' is not valid JSON"))
    (inl (TypeError "Body is unusable: Body has already been read")).

Definition pricing_page : TrackOptions :=
  mkTrackOptions (given (Some "/pricing")) (given (Some "Pricing")) missing missing missing
    missing missing missing.

(** [{ url: '/pricing', name: 'purchase', data: { plan: 'pro' } }]. *)
Definition purchase : TrackOptions :=
  mkTrackOptions (given (Some "/pricing")) missing missing missing missing missing
    (given (Some "purchase")) (given (Some {["plan" := SString "pro"]})).

(** [{ url: '/pricing', name: '' }]. *)
Definition unnamed : TrackOptions :=
  mkTrackOptions (given (Some "/pricing")) missing missing missing missing missing
    (given (Some EmptyString)) missing.

(** [{ sessionId: 's1', plan: 'pro' }]. *)
Definition pro_user : IdentifyOptions :=
  mkIdentifyOptions (given (Some "s1")) {["plan" := SString "pro"]}.

(** [{ sessionId: '' }]. *)
Definition blank_session : IdentifyOptions :=
  mkIdentifyOptions (given (Some EmptyString)) ∅.

(** [{ gitSha: '' }]. *)
Definition blank_sha : DeploymentInfo :=
  mkDeployment missing (given (Some EmptyString)) missing missing.

(** A client that knows its site and no host. *)
Definition hostless : Entrolytics :=
  mkClient
    (mkOptions missing (given (Some "site-1")) missing missing (given (Some 10000%float))
       (given (Some Standard)) (given None) (given None) (given None))
    ∅
    (mkDeployment (given None) (given None) (given None) (given None)).

(** What [send] can throw: any value but a validation error and a bare
    [EntrolyticsError]. *)
Definition thrown_by_send (e : Thrown) : bool :=
  match e with
  | Plain _ | Validation _ _ _ => false
  | _ => true
  end.

(** The catch clause of [send] sees the abort of the timer in [e]. *)
Definition looks_aborted (e : Foreign) : bool :=
  foreign_instanceof_Error e && String.eqb (foreign_name e) "AbortError".

(** The effects of a call that got to its one request: the timer armed, the
    request, the abort if the timer fired, the timer cleared. *)
Definition one_request (es : list Effect) (timeout : float) (request : Request) : Prop :=
  es = [SetTimeout timeout; Fetch request; ClearTimeout] \/
  es = [SetTimeout timeout; Fetch request; Abort; ClearTimeout].

(** An entry of a vitals batch as [trackVitalsBatch] sends it, against the
    entry [v] it was given. *)
Definition batched (opts : TrackVitalsBatchOptions) (v sent : TrackVitalOptions) : Prop :=
  v_metric sent = v_metric v /\ v_value sent = v_value v /\ v_rating sent = v_rating v /\
  v_delta sent = v_delta v /\ v_id sent = v_id v /\
  v_navigationType sent = v_navigationType v /\ v_attribution sent = v_attribution v /\
  v_url sent = given (read (vb_url opts)) /\ v_path sent = given (read (vb_path opts)).

(** The first of some optional strings that is there and not empty. *)
Fixpoint first_truthy (candidates : list (option string)) : option string :=
  match candidates with
  | [] => None
  | c :: rest => if truthy truthy_string c then c else first_truthy rest
  end.

(** The environment [detectDeploymentInfo] reads. *)
Definition process_env : gmap string string :=
  match process with
  | Some p => env p
  | None => ∅
  end.

(** The private deployment record and the mirrored configuration fields
    read alike. *)
Definition in_sync (this : Entrolytics) : Prop :=
  read (d_deployId (deploymentInfo this)) = read (opt_deployId (options this)) /\
  read (d_gitSha (deploymentInfo this)) = read (opt_gitSha (options this)) /\
  read (d_gitBranch (deploymentInfo this)) = read (opt_gitBranch (options this)).

(** A key of a [setDeployment] argument that is left out or holds a string
    that is not empty. *)
Definition left_out_or_filled (f : field string) : Prop :=
  f = missing \/ exists s, f = given (Some s) /\ truthy_string s = true.

(** The calls that keep the two copies of the deployment fields together:
    all but [init], and [setDeployment] when no key of its argument is empty
    or [undefined]. *)
Definition keeps_sync (c : Call) : Prop :=
  match c with
  | CallInit _ => False
  | CallSetDeployment deployment =>
      left_out_or_filled (d_deployId deployment) /\
      left_out_or_filled (d_gitSha deployment) /\
      left_out_or_filled (d_gitBranch deployment)
  | _ => True
  end.

(** The effects of a call; the synchronous methods have none. *)
Definition call_effects (c : Call) (this : Entrolytics) : list Effect :=
  match c with
  | CallSend payload type net => effects (send payload type net this)
  | CallTrackPageView opts net => effects (trackPageView opts net this)
  | CallTrackEvent opts net => effects (trackEvent opts net this)
  | CallTrack event eventData net => effects (track event eventData net this)
  | CallIdentify arg net => effects (identify arg net this)
  | CallTrackVital opts net => effects (trackVital opts net this)
  | CallTrackVitalsBatch opts net => effects (trackVitalsBatch opts net this)
  | CallTrackForm opts net => effects (trackForm opts net this)
  | CallTrackFormBatch opts net => effects (trackFormBatch opts net this)
  | _ => []
  end.

(** How many timers a run arms and how many it clears. *)
Fixpoint armed (es : list Effect) : nat :=
  match es with
  | SetTimeout _ :: rest => S (armed rest)
  | _ :: rest => armed rest
  | [] => O
  end.

Fixpoint cleared (es : list Effect) : nat :=
  match es with
  | ClearTimeout :: rest => S (cleared rest)
  | _ :: rest => cleared rest
  | [] => O
  end.

(** A call that stopped at a guard, or got to its one request. *)
Definition quiet_or_one_request (es : list Effect) : Prop :=
  es = [] \/ exists timeout request, one_request es timeout request.

(** [{ name: s, data: d }]. *)
Definition name_and_data (s : string) (d : EventData) : TrackOptions :=
  mkTrackOptions missing missing missing missing missing missing (given (Some s))
    (given (Some d)).

(** More sample values. *)

(** A 500 with a JSON body. *)
Definition failed_500 : Response :=
  mkResponse false 500 (fun _ => None) (inr (JObj [("error", JStr "boom")]))
    (inr "{error: boom}").

(** A 404 whose body is no JSON and can be read as text. *)
Definition gone_404 : Response :=
  mkResponse false 404 (fun _ => None)
    (inl (SyntaxError "Unexpected token 'N' is not valid JSON")) (inr "Not Found").


(** A network where no connection can be made. *)
Definition refused : Net := fun _ => Rejects (TypeError "fetch failed").

(** A thrown value that is no [Error]. *)
Definition stray : Foreign := mkForeign false false "stray" "thrown by an interceptor".

(** The client [site] with a [timeout] of zero. *)
Definition hasty : Entrolytics :=
  mkClient
    (mkOptions (given (Some "https://collect.example")) (given (Some "site-1"))
       (given (Some "visit-7")) missing (given (Some 0%float)) (given (Some Standard))
       (given (Some "dpl_1")) (given (Some "abc123")) (given (Some "main")))
    ∅
    (mkDeployment (given (Some "dpl_1")) (given (Some "abc123")) (given (Some "main"))
       (given None)).

(** [{ hostUrl: undefined }]. *)
Definition host_undefined : EntrolyticsOptions :=
  mkOptions (given None) missing missing missing missing missing missing missing missing.

(** [{ hostUrl: 'https://collect.example', websiteId: 'site-1', deployId:
    'manual' }]. *)
Definition manual_deploy : EntrolyticsOptions :=
  mkOptions (given (Some "https://collect.example")) (given (Some "site-1")) missing missing
    missing missing (given (Some "manual")) missing missing.

(** A runtime whose platform has set [DEPLOY_ID]. *)
Definition deployed : option Process := Some (mkProcess {["DEPLOY_ID" := "d-42"]} "v24.1.0").

(** A vital that comes with a [url] of its own. *)
Definition cls_on_cart : TrackVitalOptions :=
  mkVital CLS 3%float Poor missing (given (Some "v3-1")) missing missing
    (given (Some "/cart")) missing.

(** [{ vitals: [lcp, cls_on_cart], url: '/home' }]. *)
Definition home_vitals : TrackVitalsBatchOptions :=
  mkVitalsBatch [lcp; cls_on_cart] (given (Some "/home")) missing.

(** [{ plan: 'team' }]. *)
Definition team_user : IdentifyOptions :=
  mkIdentifyOptions missing {["plan" := SString "team"]}.

(** [{ gitSha: 'def456' }]. *)
Definition new_sha : DeploymentInfo :=
  mkDeployment missing (given (Some "def456")) missing missing.

(** ** How the computations run *)

Lemma required_configured (v : option string) (s : string) (e : Thrown) net this :
  v = Some s -> truthy_string s = true ->
  required v e net this = mkRun this [] (inr s).
Proof. intros -> Hs. unfold required. now rewrite Hs. Qed.

Lemma required_unset (v : option string) (e : Thrown) net this :
  truthy truthy_string v = false ->
  required v e net this = mkRun this [] (inl e).
Proof.
  unfold required. destruct v as [s|]; simpl; [|reflexivity].
  now intros ->.
Qed.

(** Unfolds the sequencing of a method down to the runs of its parts. *)
Ltac run :=
  unfold mbind, M_bind, bind, try_finally, try_catch, get_this, set_this,
    perform, fetch, await, ret, throw; cbn.

Lemma collect_run (url : string) (body : RequestBody) net this :
  collect url body net this =
    let request := collector_request url body in
    let armed := SetTimeout (collector_timeout this) in
    match net request with
    | Responds response =>
        mkRun this [armed; Fetch request; ClearTimeout]
          (if ok response then inr response
           else inl (ApiError ("HTTP error! status: " +:+ string_of_status (status response))
                       (status response) (Some response) None))
    | TimerFires =>
        mkRun this [armed; Fetch request; Abort; ClearTimeout]
          (inl (Thrown_foreign AbortError))
    | Rejects e =>
        mkRun this [armed; Fetch request; ClearTimeout] (inl (Thrown_foreign e))
    end.
Proof.
  unfold collect. run.
  destruct (net (collector_request url body)) as [response| |e]; cbn; try reflexivity.
  destruct (ok response); reflexivity.
Qed.

Lemma collect_final (url : string) (body : RequestBody) net this :
  final (collect url body net this) = this.
Proof.
  rewrite collect_run. cbn.
  destruct (net (collector_request url body)); reflexivity.
Qed.

(** *** [send] case by case *)

Section Send.

Variables (payload : EntrolyticsPayload) (type : option SendType).
Variables (net : Net) (this : Entrolytics).

Let timeout : float := default 10000%float (read (opt_timeout (options this))).

Lemma send_unset :
  unset (opt_hostUrl (options this)) ->
  send payload type net this = failed_fast this hostUrl_required.
Proof.
  intros Hhost. unfold send. run.
  rewrite required_unset by exact Hhost. reflexivity.
Qed.

Variable hostUrl : string.
Hypothesis host : configured (opt_hostUrl (options this)) hostUrl.

Let request : Request := send_request this hostUrl payload (default Event type).

(** Splits [send] on how the request ends and on the response. *)
Ltac send_cases :=
  unfold send; run;
  rewrite (required_configured _ hostUrl) by apply host; cbn;
  fold request.

Lemma send_timer_fires :
  net request = TimerFires ->
  send payload type net this =
    mkRun this [SetTimeout timeout; Fetch request; Abort; ClearTimeout]
      (inl (TimeoutError timeout)).
Proof. intros Hnet. send_cases. rewrite Hnet. reflexivity. Qed.

Lemma send_responds_ok (response : Response) :
  net request = Responds response -> ok response = true ->
  send payload type net this =
    mkRun this [SetTimeout timeout; Fetch request; ClearTimeout] (inr response).
Proof. intros Hnet Hok. send_cases. rewrite Hnet. cbn. rewrite Hok. reflexivity. Qed.

Lemma send_rate_limited (response : Response) :
  net request = Responds response -> ok response = false -> status response = 429 ->
  send payload type net this =
    mkRun this [SetTimeout timeout; Fetch request; ClearTimeout]
      (inl (RateLimitError (Some "Rate limit exceeded")
              (match headers_get response "Retry-After" with
               | Some h => if truthy_string h then Some (parseInt h) else None
               | None => None
               end))).
Proof.
  intros Hnet Hok H429. send_cases. rewrite Hnet. cbn. rewrite Hok. cbn.
  unfold send_not_ok. rewrite H429. cbn.
  destruct (headers_get response "Retry-After") as [h|]; cbn; [|reflexivity].
  destruct (truthy_string h); reflexivity.
Qed.

Lemma send_api_error_json (response : Response) (body : Json) :
  net request = Responds response -> ok response = false -> status response <> 429 ->
  json response = inr body ->
  send payload type net this =
    mkRun this [SetTimeout timeout; Fetch request; ClearTimeout]
      (inl (ApiError ("HTTP error! status: " +:+ string_of_status (status response))
              (status response) (Some response) (Some body))).
Proof.
  intros Hnet Hok H429 Hjson. send_cases. rewrite Hnet. cbn. rewrite Hok. cbn.
  unfold send_not_ok. apply Z.eqb_neq in H429. rewrite H429. run.
  rewrite Hjson. reflexivity.
Qed.

Lemma send_api_error_text (response : Response) (e : Foreign) (t : string) :
  net request = Responds response -> ok response = false -> status response <> 429 ->
  json response = inl e -> text response = inr t ->
  send payload type net this =
    mkRun this [SetTimeout timeout; Fetch request; ClearTimeout]
      (inl (ApiError ("HTTP error! status: " +:+ string_of_status (status response))
              (status response) (Some response) (Some (JStr t)))).
Proof.
  intros Hnet Hok H429 Hjson Htext. send_cases. rewrite Hnet. cbn. rewrite Hok. cbn.
  unfold send_not_ok. apply Z.eqb_neq in H429. rewrite H429. run.
  rewrite Hjson. cbn. rewrite Htext. reflexivity.
Qed.

(** When [text()] rejects too, its rejection reaches the [catch] clause; a
    [TypeError] leaves as a network error. *)
Lemma send_body_unreadable (response : Response) (e : Foreign) (message : string) :
  net request = Responds response -> ok response = false -> status response <> 429 ->
  json response = inl e -> text response = inl (TypeError message) ->
  send payload type net this =
    mkRun this [SetTimeout timeout; Fetch request; ClearTimeout]
      (inl (NetworkError ("Network request failed: " +:+ message)
              (Some (TypeError message)))).
Proof.
  intros Hnet Hok H429 Hjson Htext. send_cases. rewrite Hnet. cbn. rewrite Hok. cbn.
  unfold send_not_ok. apply Z.eqb_neq in H429. rewrite H429. run.
  rewrite Hjson. cbn. rewrite Htext. reflexivity.
Qed.

Lemma send_network_failure (message : string) :
  net request = Rejects (TypeError message) ->
  send payload type net this =
    mkRun this [SetTimeout timeout; Fetch request; ClearTimeout]
      (inl (NetworkError ("Network request failed: " +:+ message)
              (Some (TypeError message)))).
Proof. intros Hnet. send_cases. rewrite Hnet. reflexivity. Qed.

End Send.

(** *** What no call changes *)

Lemma send_catch_throws (timeout : float) (error : Thrown) net this :
  exists e, send_catch timeout error net this = mkRun this [] (inl e).
Proof.
  unfold send_catch.
  destruct (isConfigurationError error || isApiError error || isRateLimitError error);
    [eexists; reflexivity|].
  destruct (instanceof_Error error && String.eqb (error_name error) "AbortError");
    [eexists; reflexivity|].
  destruct (instanceof_TypeError error); eexists; reflexivity.
Qed.

Lemma send_not_ok_throws (response : Response) net this :
  exists e, send_not_ok response net this = mkRun this [] (inl e).
Proof.
  unfold send_not_ok. destruct (status response =? 429); [eexists; reflexivity|].
  run. destruct (json response) as [e|body]; cbn; [|eexists; reflexivity].
  destruct (text response) as [e'|t]; cbn; eexists; reflexivity.
Qed.

(** [send] leaves the client as it found it and puts at most its one request
    on the network. *)
Lemma send_frame (payload : EntrolyticsPayload) (type : option SendType) net this :
  final (send payload type net this) = this /\
  (dispatched (effects (send payload type net this)) = [] \/
   dispatched (effects (send payload type net this)) = [SendBody (default Event type) payload]).
Proof.
  unfold send. run.
  destruct (read (opt_hostUrl (options this))) as [h|]; cbn; [|now split; [|left]].
  destruct (truthy_string h); cbn; [|now split; [|left]].
  set (request := send_request this h payload (default Event type)).
  set (timeout := default 10000%float (read (opt_timeout (options this)))).
  destruct (net request) as [response| |e]; with_strategy opaque [send_catch send_not_ok] cbn.
  - destruct (ok response); with_strategy opaque [send_catch send_not_ok] cbn;
      [now split; [|right]|].
    destruct (send_not_ok_throws response net this) as [e ->].
    with_strategy opaque [send_catch] cbn.
    destruct (send_catch_throws timeout e net this) as [e' ->]. cbn.
    now split; [|right].
  - now split; [|right].
  - destruct (send_catch_throws timeout (Thrown_foreign e) net this) as [e' ->]. cbn.
    now split; [|right].
Qed.

Lemma send_final (payload : EntrolyticsPayload) (type : option SendType) net this :
  final (send payload type net this) = this.
Proof. apply send_frame. Qed.

(** With [hostUrl] configured the request goes out, whatever comes back. *)
Lemma send_dispatched (payload : EntrolyticsPayload) (type : option SendType) net this
    (hostUrl : string) :
  configured (opt_hostUrl (options this)) hostUrl ->
  dispatched (effects (send payload type net this)) = [SendBody (default Event type) payload].
Proof.
  intros [Hh Ht]. unfold send. run. rewrite Hh. cbn. rewrite Ht. cbn.
  set (request := send_request this hostUrl payload (default Event type)).
  set (timeout := default 10000%float (read (opt_timeout (options this)))).
  destruct (net request) as [response| |e]; with_strategy opaque [send_catch send_not_ok] cbn.
  - destruct (ok response); with_strategy opaque [send_catch send_not_ok] cbn;
      [reflexivity|].
    destruct (send_not_ok_throws response net this) as [e ->].
    with_strategy opaque [send_catch] cbn.
    destruct (send_catch_throws timeout e net this) as [e' ->]. reflexivity.
  - reflexivity.
  - destruct (send_catch_throws timeout (Thrown_foreign e) net this) as [e' ->].
    reflexivity.
Qed.

(** What the [catch] clause throws is a validation error only if what it
    caught was one. *)
Lemma send_catch_validation (timeout : float) (error e : Thrown) net this :
  isValidationError error = false ->
  outcome (send_catch timeout error net this) = inl e ->
  isValidationError e = false.
Proof.
  intros Herr. unfold send_catch.
  destruct (isConfigurationError error || isApiError error || isRateLimitError error);
    [intros [= <-]; exact Herr|].
  destruct (instanceof_Error error && String.eqb (error_name error) "AbortError");
    [intros [= <-]; reflexivity|].
  destruct (instanceof_TypeError error); intros [= <-]; [reflexivity|exact Herr].
Qed.

Lemma send_not_ok_validation (response : Response) (e : Thrown) net this :
  outcome (send_not_ok response net this) = inl e -> isValidationError e = false.
Proof.
  unfold send_not_ok. destruct (status response =? 429); [intros [= <-]; reflexivity|].
  run. destruct (json response) as [j|body]; cbn; [|intros [= <-]; reflexivity].
  destruct (text response) as [j'|t]; cbn; intros [= <-]; reflexivity.
Qed.

(** No exit of [send] is a validation error. *)
Lemma send_never_validation (payload : EntrolyticsPayload) (type : option SendType) net this
    (e : Thrown) :
  outcome (send payload type net this) = inl e -> isValidationError e = false.
Proof.
  unfold send. run.
  destruct (read (opt_hostUrl (options this))) as [h|]; cbn;
    [|intros [= <-]; reflexivity].
  destruct (truthy_string h); cbn; [|intros [= <-]; reflexivity].
  set (request := send_request this h payload (default Event type)).
  set (timeout := default 10000%float (read (opt_timeout (options this)))).
  destruct (net request) as [response| |f]; with_strategy opaque [send_catch send_not_ok] cbn.
  - destruct (ok response); with_strategy opaque [send_catch send_not_ok] cbn;
      [discriminate|].
    destruct (send_not_ok response net this) as [c es [e1|r]] eqn:E1;
      with_strategy opaque [send_catch] cbn; [|discriminate].
    destruct (send_catch timeout e1 net c) as [c' es' o'] eqn:E2. cbn. intros ->.
    apply (send_catch_validation timeout e1 e net c); [|now rewrite E2].
    apply (send_not_ok_validation response e1 net this). now rewrite E1.
  - intros [= <-]. reflexivity.
  - destruct (send_catch timeout (Thrown_foreign f) net this) as [c' es' o'] eqn:E2.
    cbn. intros ->.
    apply (send_catch_validation timeout (Thrown_foreign f) e net this); [reflexivity|].
    now rewrite E2.
Qed.

(** *** The typed methods in terms of [send] and [collect] *)

Lemma Run_eta {A : Type} (r : Run A) : mkRun (final r) (effects r) (outcome r) = r.
Proof. destruct r; reflexivity. Qed.

(** Runs the guard on [websiteId] when it is configured. *)
Ltac pass_guard H :=
  run; rewrite (required_configured _ _ _ _ _ (proj1 H) (proj2 H)); cbn.

Lemma trackPageView_sends (opts : TrackOptions) (websiteId : string) net this :
  configured (opt_websiteId (options this)) websiteId ->
  truthy truthy_string (read (t_url opts)) = true ->
  trackPageView opts net this = send (payload_of_options websiteId opts) None net this.
Proof.
  intros Hsite Hurl. unfold trackPageView. pass_guard Hsite.
  rewrite Hurl. cbn. apply Run_eta.
Qed.

Lemma trackEvent_sends (opts : TrackOptions) (websiteId : string) net this :
  configured (opt_websiteId (options this)) websiteId ->
  truthy truthy_string (read (t_name opts)) = true ->
  trackEvent opts net this = send (payload_of_options websiteId opts) None net this.
Proof.
  intros Hsite Hname. unfold trackEvent. pass_guard Hsite.
  rewrite Hname. cbn. apply Run_eta.
Qed.

Lemma track_sends (event : TrackArg) (eventData : option EventData) (websiteId : string)
    net this :
  configured (opt_websiteId (options this)) websiteId ->
  track event eventData net this =
    send (track_payload websiteId event eventData) None net this.
Proof. intros Hsite. unfold track. pass_guard Hsite. apply Run_eta. Qed.

Lemma identify_sends (arg : option IdentifyOptions) (websiteId : string) net this :
  configured (opt_websiteId (options this)) websiteId ->
  let props := default no_identify_options arg in
  identify arg net this =
    send (identify_payload websiteId props this (properties (identified props this)))
      (Some Identify) net (identified props this).
Proof. intros Hsite props. unfold identify. pass_guard Hsite. apply Run_eta. Qed.

Lemma trackVital_collects (opts : TrackVitalOptions) (websiteId hostUrl : string) net this :
  configured (opt_websiteId (options this)) websiteId ->
  configured (opt_hostUrl (options this)) hostUrl ->
  trackVital opts net this =
    collect (hostUrl +:+ "/api/collect/vitals") (VitalBody websiteId (vital_payload opts))
      net this.
Proof.
  intros Hsite Hhost. unfold trackVital. pass_guard Hsite. pass_guard Hhost.
  apply Run_eta.
Qed.

Lemma trackVitalsBatch_collects (opts : TrackVitalsBatchOptions) (websiteId hostUrl : string)
    net this :
  configured (opt_websiteId (options this)) websiteId ->
  configured (opt_hostUrl (options this)) hostUrl ->
  trackVitalsBatch opts net this =
    collect (hostUrl +:+ "/api/collect/vitals")
      (VitalsBatchBody websiteId (List.map (batch_entry opts) (vb_vitals opts))) net this.
Proof.
  intros Hsite Hhost. unfold trackVitalsBatch. pass_guard Hsite. pass_guard Hhost.
  apply Run_eta.
Qed.

Lemma trackForm_collects (opts : TrackFormOptions) (websiteId hostUrl : string) net this :
  configured (opt_websiteId (options this)) websiteId ->
  configured (opt_hostUrl (options this)) hostUrl ->
  trackForm opts net this =
    collect (hostUrl +:+ "/api/collect/forms") (FormBody websiteId opts) net this.
Proof.
  intros Hsite Hhost. unfold trackForm. pass_guard Hsite. pass_guard Hhost.
  apply Run_eta.
Qed.

Lemma trackFormBatch_collects (opts : TrackFormBatchOptions) (websiteId hostUrl : string)
    net this :
  configured (opt_websiteId (options this)) websiteId ->
  configured (opt_hostUrl (options this)) hostUrl ->
  trackFormBatch opts net this =
    collect (hostUrl +:+ "/api/collect/forms") (FormBatchBody websiteId (fb_events opts))
      net this.
Proof.
  intros Hsite Hhost. unfold trackFormBatch. pass_guard Hsite. pass_guard Hhost.
  apply Run_eta.
Qed.

(** The guard on [websiteId], first in every tracking method. *)
Ltac stop_at_guard H := run; rewrite (required_unset _ _ _ _ H); reflexivity.

Lemma websiteId_guard net this :
  unset (opt_websiteId (options this)) ->
  (forall opts, trackPageView opts net this = failed_fast this websiteId_required) /\
  (forall opts, trackEvent opts net this = failed_fast this websiteId_required) /\
  (forall event eventData, track event eventData net this = failed_fast this websiteId_required) /\
  (forall arg, identify arg net this = failed_fast this websiteId_required) /\
  (forall opts, trackVital opts net this = failed_fast this websiteId_required) /\
  (forall opts, trackVitalsBatch opts net this = failed_fast this websiteId_required) /\
  (forall opts, trackForm opts net this = failed_fast this websiteId_required) /\
  (forall opts, trackFormBatch opts net this = failed_fast this websiteId_required).
Proof.
  intros Hsite. repeat split; intros.
  - unfold trackPageView. stop_at_guard Hsite.
  - unfold trackEvent. stop_at_guard Hsite.
  - unfold track. stop_at_guard Hsite.
  - unfold identify. stop_at_guard Hsite.
  - unfold trackVital. stop_at_guard Hsite.
  - unfold trackVitalsBatch. stop_at_guard Hsite.
  - unfold trackForm. stop_at_guard Hsite.
  - unfold trackFormBatch. stop_at_guard Hsite.
Qed.

(** The guard on [hostUrl], second in every collector. *)
Lemma hostUrl_guard (websiteId : string) net this :
  configured (opt_websiteId (options this)) websiteId ->
  unset (opt_hostUrl (options this)) ->
  (forall opts, trackVital opts net this = failed_fast this hostUrl_required) /\
  (forall opts, trackVitalsBatch opts net this = failed_fast this hostUrl_required) /\
  (forall opts, trackForm opts net this = failed_fast this hostUrl_required) /\
  (forall opts, trackFormBatch opts net this = failed_fast this hostUrl_required).
Proof.
  intros Hsite Hhost. repeat split; intros.
  - unfold trackVital. pass_guard Hsite. stop_at_guard Hhost.
  - unfold trackVitalsBatch. pass_guard Hsite. stop_at_guard Hhost.
  - unfold trackForm. pass_guard Hsite. stop_at_guard Hhost.
  - unfold trackFormBatch. pass_guard Hsite. stop_at_guard Hhost.
Qed.

(** ** Timeouts *)

(** [send] turns the abort of its timer into a timeout error that carries
    the configured duration, 10000 when none is configured. *)
Lemma send_timeout_error (payload : EntrolyticsPayload) (type : option SendType)
    (hostUrl : string) net this :
  configured (opt_hostUrl (options this)) hostUrl ->
  (forall request, net request = TimerFires) ->
  outcome (send payload type net this) =
    inl (TimeoutError (default 10000%float (read (opt_timeout (options this))))) /\
  In Abort (effects (send payload type net this)).
Proof.
  intros Hhost Hnet.
  rewrite (send_timer_fires payload type net this hostUrl Hhost (Hnet _)).
  split; [reflexivity|]. cbn. tauto.
Qed.

(** C1, as the code has it: when the timer fires before a response
    arrives, each of [trackVital], [trackVitalsBatch], [trackForm] and
    [trackFormBatch] cancels its request and then fails with the bare
    [AbortError] of the cancelled fetch, which is not a timeout error and
    carries no duration; only [send] maps it to one. *)
Theorem collectors_timer_fires (websiteId hostUrl : string) net this :
  configured (opt_websiteId (options this)) websiteId ->
  configured (opt_hostUrl (options this)) hostUrl ->
  (forall request, net request = TimerFires) ->
  (forall opts, outcome (trackVital opts net this) = inl (Thrown_foreign AbortError) /\
                In Abort (effects (trackVital opts net this))) /\
  (forall opts, outcome (trackVitalsBatch opts net this) = inl (Thrown_foreign AbortError) /\
                In Abort (effects (trackVitalsBatch opts net this))) /\
  (forall opts, outcome (trackForm opts net this) = inl (Thrown_foreign AbortError) /\
                In Abort (effects (trackForm opts net this))) /\
  (forall opts, outcome (trackFormBatch opts net this) = inl (Thrown_foreign AbortError) /\
                In Abort (effects (trackFormBatch opts net this))) /\
  isTimeoutError (Thrown_foreign AbortError) = false.
Proof.
  intros Hsite Hhost Hnet.
  assert (Hcollect : forall url body,
            outcome (collect url body net this) = inl (Thrown_foreign AbortError) /\
            In Abort (effects (collect url body net this))).
  { intros url body. rewrite collect_run. cbn. rewrite Hnet. cbn. tauto. }
  repeat split; intros.
  - rewrite (trackVital_collects _ _ _ _ _ Hsite Hhost). apply Hcollect.
  - rewrite (trackVital_collects _ _ _ _ _ Hsite Hhost). apply Hcollect.
  - rewrite (trackVitalsBatch_collects _ _ _ _ _ Hsite Hhost). apply Hcollect.
  - rewrite (trackVitalsBatch_collects _ _ _ _ _ Hsite Hhost). apply Hcollect.
  - rewrite (trackForm_collects _ _ _ _ _ Hsite Hhost). apply Hcollect.
  - rewrite (trackForm_collects _ _ _ _ _ Hsite Hhost). apply Hcollect.
  - rewrite (trackFormBatch_collects _ _ _ _ _ Hsite Hhost). apply Hcollect.
  - rewrite (trackFormBatch_collects _ _ _ _ _ Hsite Hhost). apply Hcollect.
Qed.

(** ** Responses that are not ok *)

(** With a [Retry-After] header that starts with an integer, the rate-limit
    error carries that integer. *)
Lemma send_retry_after_parsed (payload : EntrolyticsPayload) (type : option SendType)
    (hostUrl h : string) (negative : bool) (seconds : Z) (response : Response) net this :
  configured (opt_hostUrl (options this)) hostUrl ->
  net (send_request this hostUrl payload (default Event type)) = Responds response ->
  ok response = false -> status response = 429 ->
  headers_get response "Retry-After" = Some h ->
  parse_integer h = Some (negative, seconds) ->
  outcome (send payload type net this) =
    inl (RateLimitError (Some "Rate limit exceeded") (Some (number_of_Z negative seconds))).
Proof.
  intros Hhost Hnet Hok H429 Hheader Hparse.
  rewrite (send_rate_limited payload type net this hostUrl Hhost response Hnet Hok H429).
  cbn. rewrite Hheader.
  destruct h as [|c rest]; [discriminate Hparse|]. cbn [truthy_string].
  unfold parseInt. rewrite Hparse. reflexivity.
Qed.

(** Without the header, or with an empty one, it carries none. *)
Lemma send_retry_after_absent (payload : EntrolyticsPayload) (type : option SendType)
    (hostUrl : string) (response : Response) net this :
  configured (opt_hostUrl (options this)) hostUrl ->
  net (send_request this hostUrl payload (default Event type)) = Responds response ->
  ok response = false -> status response = 429 ->
  truthy truthy_string (headers_get response "Retry-After") = false ->
  outcome (send payload type net this) =
    inl (RateLimitError (Some "Rate limit exceeded") None).
Proof.
  intros Hhost Hnet Hok H429 Hheader.
  rewrite (send_rate_limited payload type net this hostUrl Hhost response Hnet Hok H429).
  cbn. destruct (headers_get response "Retry-After") as [h|]; [|reflexivity].
  cbn in Hheader. rewrite Hheader. reflexivity.
Qed.

(** C2, as the code has it: on a 429 whose [Retry-After] header is not
    empty and does not start with an integer, such as an HTTP date, the
    rate-limit error of [send] carries a retry-after value all the same, the
    number [NaN]; and on another status whose body neither [json()] nor
    [text()] can read, [send] throws a network error, not an API error. *)
Theorem send_not_ok_slips (payload : EntrolyticsPayload) (type : option SendType)
    (hostUrl : string) (response : Response) net this :
  configured (opt_hostUrl (options this)) hostUrl ->
  net (send_request this hostUrl payload (default Event type)) = Responds response ->
  ok response = false ->
  (forall h, status response = 429 ->
     headers_get response "Retry-After" = Some h -> truthy_string h = true ->
     parse_integer h = None ->
     outcome (send payload type net this) =
       inl (RateLimitError (Some "Rate limit exceeded") (Some nan))) /\
  (forall e message, status response <> 429 ->
     json response = inl e -> text response = inl (TypeError message) ->
     outcome (send payload type net this) =
       inl (NetworkError ("Network request failed: " +:+ message)
              (Some (TypeError message)))).
Proof.
  intros Hhost Hnet Hok. split.
  - intros h H429 Hheader Hh Hparse.
    rewrite (send_rate_limited payload type net this hostUrl Hhost response Hnet Hok H429).
    cbn. rewrite Hheader, Hh. unfold parseInt. rewrite Hparse. reflexivity.
  - intros e message H429 Hjson Htext.
    rewrite (send_body_unreadable payload type net this hostUrl Hhost response e message
               Hnet Hok H429 Hjson Htext).
    reflexivity.
Qed.

(** C6: a response that is not ok makes [trackVital] fail with an API error
    that carries the status code and the response, whatever the status; a
    429 gets the same API error and no rate-limit error. *)
Theorem trackVital_not_ok (opts : TrackVitalOptions) (websiteId hostUrl : string)
    (response : Response) net this :
  configured (opt_websiteId (options this)) websiteId ->
  configured (opt_hostUrl (options this)) hostUrl ->
  net (collector_request (hostUrl +:+ "/api/collect/vitals")
         (VitalBody websiteId (vital_payload opts))) = Responds response ->
  ok response = false ->
  exists e,
    outcome (trackVital opts net this) = inl e /\
    e = ApiError ("HTTP error! status: " +:+ string_of_status (status response))
          (status response) (Some response) None /\
    isApiError e = true /\ isRateLimitError e = false /\
    (base_of e ≫= statusCode) = Some (status response).
Proof.
  intros Hsite Hhost Hnet Hok.
  rewrite (trackVital_collects _ _ _ _ _ Hsite Hhost), collect_run. cbn.
  rewrite Hnet, Hok. cbn. eexists. repeat split.
Qed.

(** ** Deployment information *)

(** The three mirrored configuration fields take an incoming value exactly
    when it is not empty, and the other configuration fields stay. *)
Lemma setDeployment_mirror (deployment : DeploymentInfo) (this : Entrolytics) :
  let o := options this in
  let o' := options (setDeployment deployment this) in
  read (opt_deployId o') =
    or_else truthy_string (read (d_deployId deployment)) (read (opt_deployId o)) /\
  read (opt_gitSha o') =
    or_else truthy_string (read (d_gitSha deployment)) (read (opt_gitSha o)) /\
  read (opt_gitBranch o') =
    or_else truthy_string (read (d_gitBranch deployment)) (read (opt_gitBranch o)) /\
  opt_hostUrl o' = opt_hostUrl o /\ opt_websiteId o' = opt_websiteId o /\
  opt_sessionId o' = opt_sessionId o /\ opt_userAgent o' = opt_userAgent o /\
  opt_timeout o' = opt_timeout o /\ opt_endpoint o' = opt_endpoint o.
Proof. cbn. repeat split. Qed.

(** A key that the argument does not have stays in both copies. *)
Lemma setDeployment_unmentioned (deployment : DeploymentInfo) (this : Entrolytics) :
  let this' := setDeployment deployment this in
  (d_deployId deployment = missing ->
   d_deployId (deploymentInfo this') = d_deployId (deploymentInfo this) /\
   read (opt_deployId (options this')) = read (opt_deployId (options this))) /\
  (d_gitSha deployment = missing ->
   d_gitSha (deploymentInfo this') = d_gitSha (deploymentInfo this) /\
   read (opt_gitSha (options this')) = read (opt_gitSha (options this))) /\
  (d_gitBranch deployment = missing ->
   d_gitBranch (deploymentInfo this') = d_gitBranch (deploymentInfo this) /\
   read (opt_gitBranch (options this')) = read (opt_gitBranch (options this))).
Proof. cbn. repeat split; rewrite H; reflexivity. Qed.

(** A value that is not empty goes into both copies. *)
Lemma setDeployment_value (deployment : DeploymentInfo) (this : Entrolytics) (s : string) :
  truthy_string s = true ->
  let this' := setDeployment deployment this in
  (d_deployId deployment = given (Some s) ->
   read (d_deployId (deploymentInfo this')) = Some s /\
   read (opt_deployId (options this')) = Some s) /\
  (d_gitSha deployment = given (Some s) ->
   read (d_gitSha (deploymentInfo this')) = Some s /\
   read (opt_gitSha (options this')) = Some s) /\
  (d_gitBranch deployment = given (Some s) ->
   read (d_gitBranch (deploymentInfo this')) = Some s /\
   read (opt_gitBranch (options this')) = Some s).
Proof.
  intros Hs. cbn. repeat split; rewrite H; cbn; unfold or_else; cbn; rewrite ?Hs; reflexivity.
Qed.

(** C3, as the code has it: a key of the argument that holds the empty
    string or [undefined] overwrites the private deployment record, while
    the mirrored configuration field keeps its old value, so the two copies
    part. *)
Theorem setDeployment_empty_value (deployment : DeploymentInfo) (this : Entrolytics)
    (v : option string) :
  truthy truthy_string v = false ->
  let this' := setDeployment deployment this in
  (d_deployId deployment = given v ->
   read (d_deployId (deploymentInfo this')) = v /\
   read (opt_deployId (options this')) = read (opt_deployId (options this))) /\
  (d_gitSha deployment = given v ->
   read (d_gitSha (deploymentInfo this')) = v /\
   read (opt_gitSha (options this')) = read (opt_gitSha (options this))) /\
  (d_gitBranch deployment = given v ->
   read (d_gitBranch (deploymentInfo this')) = v /\
   read (opt_gitBranch (options this')) = read (opt_gitBranch (options this))).
Proof.
  intros Hv. cbn. repeat split; rewrite H; cbn; unfold or_else; rewrite ?Hv; reflexivity.
Qed.

(** ** Failing fast *)

(** C4, amended: with [hostUrl] absent (or empty), [send] fails with the
    configuration error that names [hostUrl]; each of the four collectors
    fails with it when [websiteId] is configured and with the configuration
    error that names [websiteId] when that is absent too; in every case
    nothing has been put on the network, no timer armed and the client is
    as before. *)
Theorem hostUrl_unset_fails_fast net this :
  unset (opt_hostUrl (options this)) ->
  (forall payload type, send payload type net this = failed_fast this hostUrl_required) /\
  (forall websiteId, configured (opt_websiteId (options this)) websiteId ->
     (forall opts, trackVital opts net this = failed_fast this hostUrl_required) /\
     (forall opts, trackVitalsBatch opts net this = failed_fast this hostUrl_required) /\
     (forall opts, trackForm opts net this = failed_fast this hostUrl_required) /\
     (forall opts, trackFormBatch opts net this = failed_fast this hostUrl_required)) /\
  (unset (opt_websiteId (options this)) ->
     (forall opts, trackVital opts net this = failed_fast this websiteId_required) /\
     (forall opts, trackVitalsBatch opts net this = failed_fast this websiteId_required) /\
     (forall opts, trackForm opts net this = failed_fast this websiteId_required) /\
     (forall opts, trackFormBatch opts net this = failed_fast this websiteId_required)) /\
  error_message hostUrl_required =
    "hostUrl is required. Call init() with hostUrl first.: 'hostUrl' is required" /\
  error_message websiteId_required =
    "websiteId is required. Call init() with websiteId first.: 'websiteId' is required".
Proof.
  intros Hhost. split; [|split; [|split]].
  - intros payload type. apply send_unset, Hhost.
  - intros websiteId Hsite. exact (hostUrl_guard websiteId net this Hsite Hhost).
  - intros Hsite. destruct (websiteId_guard net this Hsite) as (_ & _ & _ & _ & H).
    exact H.
  - split; reflexivity.
Qed.

(** C5: with [websiteId] absent (or empty), each of the eight tracking
    methods fails with the configuration error that names [websiteId]; with
    it configured, [trackPageView] without a [url] fails with a validation
    error whose field is [url] and [trackEvent] without a [name] with one
    whose field is [name]; each of these calls puts nothing on the network
    and leaves the client as it was. *)
Theorem tracking_fails_fast net this :
  (unset (opt_websiteId (options this)) ->
     (forall opts, trackPageView opts net this = failed_fast this websiteId_required) /\
     (forall opts, trackEvent opts net this = failed_fast this websiteId_required) /\
     (forall event eventData,
        track event eventData net this = failed_fast this websiteId_required) /\
     (forall arg, identify arg net this = failed_fast this websiteId_required) /\
     (forall opts, trackVital opts net this = failed_fast this websiteId_required) /\
     (forall opts, trackVitalsBatch opts net this = failed_fast this websiteId_required) /\
     (forall opts, trackForm opts net this = failed_fast this websiteId_required) /\
     (forall opts, trackFormBatch opts net this = failed_fast this websiteId_required)) /\
  (forall websiteId opts,
     configured (opt_websiteId (options this)) websiteId ->
     truthy truthy_string (read (t_url opts)) = false ->
     trackPageView opts net this =
       failed_fast this
         (ValidationError "url is required for page view tracking" (Some "url") None)) /\
  (forall websiteId opts,
     configured (opt_websiteId (options this)) websiteId ->
     truthy truthy_string (read (t_name opts)) = false ->
     trackEvent opts net this =
       failed_fast this
         (ValidationError "name is required for event tracking" (Some "name") None)) /\
  error_message websiteId_required =
    "websiteId is required. Call init() with websiteId first.: 'websiteId' is required" /\
  isConfigurationError websiteId_required = true.
Proof.
  split; [exact (websiteId_guard net this)|]. split; [|split; [|split; reflexivity]].
  - intros websiteId opts Hsite Hurl. unfold trackPageView. pass_guard Hsite.
    rewrite Hurl. reflexivity.
  - intros websiteId opts Hsite Hname. unfold trackEvent. pass_guard Hsite.
    rewrite Hname. reflexivity.
Qed.

(** ** Event payloads *)

(** C7: with [websiteId] configured, [track(s)] and [track({name: s})] hand
    the same payload to [send], one whose data is [undefined], and so run
    alike; [track(o, d)] sends [d] as the data whatever data [o] has, and
    [track(o)] sends the data of [o]. *)
Theorem track_payloads (websiteId : string) net this :
  configured (opt_websiteId (options this)) websiteId ->
  (forall s,
     track (EventName s) None net this =
       send (track_payload websiteId (EventName s) None) None net this /\
     track (EventOptions (name_only s)) None net this =
       send (track_payload websiteId (EventOptions (name_only s)) None) None net this /\
     track_payload websiteId (EventName s) None =
       track_payload websiteId (EventOptions (name_only s)) None /\
     on_wire (p_data (track_payload websiteId (EventName s) None)) = false /\
     track (EventName s) None net this = track (EventOptions (name_only s)) None net this) /\
  (forall o d,
     track (EventOptions o) (Some d) net this =
       send (track_payload websiteId (EventOptions o) (Some d)) None net this /\
     read (p_data (track_payload websiteId (EventOptions o) (Some d))) = Some d) /\
  (forall o,
     track (EventOptions o) None net this =
       send (track_payload websiteId (EventOptions o) None) None net this /\
     read (p_data (track_payload websiteId (EventOptions o) None)) = read (t_data o)).
Proof.
  intros Hsite. split; [|split].
  - intros s. rewrite !(track_sends _ _ websiteId net this Hsite). repeat split.
  - intros o d. rewrite (track_sends _ _ websiteId net this Hsite). split; reflexivity.
  - intros o. rewrite (track_sends _ _ websiteId net this Hsite). split; reflexivity.
Qed.

(** C9, amended: with [websiteId] configured, [track] on an options object
    whose name is absent or empty throws no validation error, where
    [trackEvent] does; it hands [send] a payload with the name as the
    options have it, so the payload goes out without a name field when the
    name is absent and with the empty name when the name is the empty
    string. *)
Theorem track_without_name (websiteId : string) (o : TrackOptions)
    (eventData : option EventData) net this :
  configured (opt_websiteId (options this)) websiteId ->
  truthy truthy_string (read (t_name o)) = false ->
  track (EventOptions o) eventData net this =
    send (track_payload websiteId (EventOptions o) eventData) None net this /\
  p_name (track_payload websiteId (EventOptions o) eventData) = t_name o /\
  (read (t_name o) = None ->
   on_wire (p_name (track_payload websiteId (EventOptions o) eventData)) = false) /\
  (read (t_name o) = Some EmptyString ->
   on_wire (p_name (track_payload websiteId (EventOptions o) eventData)) = true) /\
  (forall e, outcome (track (EventOptions o) eventData net this) = inl e ->
             isValidationError e = false) /\
  (forall hostUrl, configured (opt_hostUrl (options this)) hostUrl ->
     dispatched (effects (track (EventOptions o) eventData net this)) =
       [SendBody Event (track_payload websiteId (EventOptions o) eventData)]) /\
  (exists e, outcome (trackEvent o net this) = inl e /\ isValidationError e = true).
Proof.
  intros Hsite Hname. rewrite (track_sends _ _ websiteId net this Hsite).
  split; [reflexivity|]. split; [reflexivity|]. split; [|split; [|split; [|split]]].
  - intros Hnone. unfold on_wire. cbn. now rewrite Hnone.
  - intros Hempty. unfold on_wire. cbn. now rewrite Hempty.
  - intros e. apply send_never_validation.
  - intros hostUrl Hhost. exact (send_dispatched _ None net this hostUrl Hhost).
  - unfold trackEvent. pass_guard Hsite. rewrite Hname. cbn. eexists. split; reflexivity.
Qed.

(** ** Identification *)

(** The bag after a merge, key by key: the argument wins. *)
Lemma identified_lookup (props : IdentifyOptions) (this : Entrolytics) (k : string) :
  properties (identified props this) !! k =
    match identify_entries props !! k with
    | Some v => Some v
    | None => properties this !! k
    end.
Proof.
  cbn. rewrite lookup_union.
  destruct (identify_entries props !! k), (properties this !! k); reflexivity.
Qed.

(** C8, amended: with [websiteId] configured, [identify(props)] merges
    [props] into the bag, the later value winning key by key; it hands
    [send] an identify payload whose data is the whole bag after the merge
    and whose session is [props.sessionId] when that is present and not
    empty, and the configured [sessionId] otherwise; the configuration,
    [sessionId] included, is as before the call. *)
Theorem identify_merges_and_sends (arg : option IdentifyOptions) (websiteId : string)
    net this :
  configured (opt_websiteId (options this)) websiteId ->
  let props := default no_identify_options arg in
  let this' := final (identify arg net this) in
  let payload := identify_payload websiteId props this (properties this') in
  (forall k, properties this' !! k =
               match identify_entries props !! k with
               | Some v => Some v
               | None => properties this !! k
               end) /\
  identify arg net this = send payload (Some Identify) net (identified props this) /\
  read (p_data payload) = Some (properties this') /\
  (forall s, read (id_sessionId props) = Some s -> truthy_string s = true ->
             read (p_session payload) = Some s) /\
  (truthy truthy_string (read (id_sessionId props)) = false ->
   read (p_session payload) = read (opt_sessionId (options this))) /\
  options this' = options this /\
  (forall hostUrl, configured (opt_hostUrl (options this)) hostUrl ->
     dispatched (effects (identify arg net this)) = [SendBody Identify payload]).
Proof.
  intros Hsite props this' payload.
  assert (Hfinal : this' = identified props this).
  { unfold this'. rewrite (identify_sends arg websiteId net this Hsite). apply send_final. }
  unfold payload. rewrite Hfinal. split; [|split; [|split; [|split; [|split; [|split]]]]].
  - intros k. apply identified_lookup.
  - exact (identify_sends arg websiteId net this Hsite).
  - reflexivity.
  - intros s Hs Ht. cbn. unfold or_else. rewrite Hs. cbn. now rewrite Ht.
  - intros Hs. cbn. unfold or_else. now rewrite Hs.
  - reflexivity.
  - intros hostUrl Hhost. rewrite (identify_sends arg websiteId net this Hsite).
    exact (send_dispatched _ (Some Identify) net (identified props this) hostUrl Hhost).
Qed.

(** *** The bag across calls *)

(** Splits a method on its [websiteId] guard, keeping [send] and [collect]
    folded. *)
Ltac split_guard this :=
  unfold mbind, M_bind, bind, get_this, set_this;
  with_strategy opaque [send collect] cbn;
  destruct (read (opt_websiteId (options this))) as [w|];
  with_strategy opaque [send collect] cbn;
  [destruct (truthy_string w); with_strategy opaque [send collect] cbn|].

Lemma trackPageView_final (opts : TrackOptions) net this :
  final (trackPageView opts net this) = this.
Proof.
  unfold trackPageView. split_guard this; try reflexivity.
  destruct (truthy truthy_string (read (t_url opts)));
    with_strategy opaque [send] cbn; [apply send_final|reflexivity].
Qed.

Lemma trackEvent_final (opts : TrackOptions) net this :
  final (trackEvent opts net this) = this.
Proof.
  unfold trackEvent. split_guard this; try reflexivity.
  destruct (truthy truthy_string (read (t_name opts)));
    with_strategy opaque [send] cbn; [apply send_final|reflexivity].
Qed.

Lemma track_final (event : TrackArg) (eventData : option EventData) net this :
  final (track event eventData net this) = this.
Proof. unfold track. split_guard this; try reflexivity. apply send_final. Qed.

(** After its guard on [websiteId] a collector tests [hostUrl] and
    collects. *)
Ltac collector_final this :=
  split_guard this; try reflexivity;
  destruct (read (opt_hostUrl (options this))) as [h|];
  with_strategy opaque [collect] cbn; try reflexivity;
  destruct (truthy_string h); with_strategy opaque [collect] cbn; try reflexivity;
  apply collect_final.

Lemma trackVital_final (opts : TrackVitalOptions) net this :
  final (trackVital opts net this) = this.
Proof. unfold trackVital, required. collector_final this. Qed.

Lemma trackVitalsBatch_final (opts : TrackVitalsBatchOptions) net this :
  final (trackVitalsBatch opts net this) = this.
Proof. unfold trackVitalsBatch, required. collector_final this. Qed.

Lemma trackForm_final (opts : TrackFormOptions) net this :
  final (trackForm opts net this) = this.
Proof. unfold trackForm, required. collector_final this. Qed.

Lemma trackFormBatch_final (opts : TrackFormBatchOptions) net this :
  final (trackFormBatch opts net this) = this.
Proof. unfold trackFormBatch, required. collector_final this. Qed.

(** [identify] either stops at its guard or merges its argument. *)
Lemma identify_final (arg : option IdentifyOptions) net this :
  final (identify arg net this) = this \/
  final (identify arg net this) = identified (default no_identify_options arg) this.
Proof.
  unfold identify. split_guard this; try (left; reflexivity).
  right. apply send_final.
Qed.

Lemma identified_keeps_sessionId (props : IdentifyOptions) (this : Entrolytics) :
  has_sessionId this -> has_sessionId (identified props this).
Proof.
  unfold has_sessionId. rewrite identified_lookup.
  destruct (identify_entries props !! "sessionId"); [eauto|trivial].
Qed.

(** A call other than [reset] and [clearProperty('sessionId')] keeps the
    key. *)
Lemma after_keeps_sessionId (c : Call) (this : Entrolytics) :
  clears_sessionId c = false -> has_sessionId this -> has_sessionId (after c this).
Proof.
  intros Hc Hthis. destruct c; cbn [after]; try discriminate Hc.
  - exact Hthis.
  - now rewrite send_final.
  - now rewrite trackPageView_final.
  - now rewrite trackEvent_final.
  - now rewrite track_final.
  - destruct (identify_final arg net this) as [-> | ->];
      [exact Hthis|now apply identified_keeps_sessionId].
  - unfold has_sessionId, setProperty in *. cbn.
    destruct (String.eqb key "__proto__"); [exact Hthis|].
    destruct (decide (key = "sessionId")) as [->|Hne].
    + rewrite lookup_insert_eq. eauto.
    + now rewrite lookup_insert_ne.
  - unfold has_sessionId, setProperties in *. cbn. rewrite lookup_union.
    destruct Hthis as [v ->]. destruct (props !! "sessionId"); cbn; eauto.
  - unfold has_sessionId, clearProperty in *. cbn. cbn in Hc.
    apply String.eqb_neq in Hc. now rewrite lookup_delete_ne.
  - now rewrite trackVital_final.
  - now rewrite trackVitalsBatch_final.
  - now rewrite trackForm_final.
  - now rewrite trackFormBatch_final.
  - exact Hthis.
Qed.

Lemma after_all_keeps_sessionId (cs : list Call) (this : Entrolytics) :
  Forall (fun c => clears_sessionId c = false) cs ->
  has_sessionId this -> has_sessionId (after_all cs this).
Proof.
  intros Hcs. revert this.
  induction Hcs as [|c rest Hc _ IH]; intros this Hthis; cbn; [exact Hthis|].
  apply IH, after_keeps_sessionId; assumption.
Qed.

(** C10: with [websiteId] configured, [identify(props)] with a [sessionId]
    key in [props] stores that key in the bag, so the data of its payload
    has a [sessionId] entry; and after any further calls, none of them
    [reset] or [clearProperty('sessionId')], the data of the payload of
    every [identify] still has one.  The session of the payload is computed
    apart, from the argument or the configuration. *)
Theorem identify_stores_sessionId (props : IdentifyOptions) (v : option string)
    (websiteId : string) net this :
  configured (opt_websiteId (options this)) websiteId ->
  id_sessionId props = given v ->
  let this1 := final (identify (Some props) net this) in
  properties this1 !! "sessionId" = Some (of_optional_string v) /\
  identify (Some props) net this =
    send (identify_payload websiteId props this (properties this1)) (Some Identify)
      net this1 /\
  read (p_session (identify_payload websiteId props this (properties this1))) =
    or_else truthy_string v (read (opt_sessionId (options this))) /\
  (forall (cs : list Call) (arg : option IdentifyOptions) (websiteId' : string) net',
     Forall (fun c => clears_sessionId c = false) cs ->
     let this2 := after_all cs this1 in
     configured (opt_websiteId (options this2)) websiteId' ->
     let props' := default no_identify_options arg in
     let bag := properties (final (identify arg net' this2)) in
     identify arg net' this2 =
       send (identify_payload websiteId' props' this2 bag) (Some Identify) net'
         (identified props' this2) /\
     is_Some (bag !! "sessionId")).
Proof.
  intros Hsite Hkey this1.
  assert (Hfinal : this1 = identified props this).
  { unfold this1. rewrite (identify_sends (Some props) websiteId net this Hsite).
    apply send_final. }
  assert (Hstored : properties this1 !! "sessionId" = Some (of_optional_string v)).
  { rewrite Hfinal, identified_lookup. unfold identify_entries. rewrite Hkey. cbn.
    now rewrite lookup_insert_eq. }
  split; [exact Hstored|]. split; [|split].
  - rewrite Hfinal. exact (identify_sends (Some props) websiteId net this Hsite).
  - cbn. now rewrite Hkey.
  - intros cs arg websiteId' net' Hcs this2 Hsite' props' bag.
    assert (Hbag : bag = properties (identified props' this2)).
    { unfold bag. rewrite (identify_sends arg websiteId' net' this2 Hsite').
      now rewrite send_final. }
    split.
    + rewrite Hbag. exact (identify_sends arg websiteId' net' this2 Hsite').
    + rewrite Hbag. apply identified_keeps_sessionId.
      apply after_all_keeps_sessionId; [exact Hcs|].
      unfold has_sessionId. rewrite Hstored. eauto.
Qed.

(** ** More on [send] *)

(** X1: with [hostUrl] configured, when the timer of [send] fires before a
    response arrives, the request is aborted, the timer cleared, the client
    left as it was, and [send] fails with a timeout error that carries the
    configured [timeout], zero included, and 10000 when none is configured. *)
Theorem send_times_out (payload : EntrolyticsPayload) (type : option SendType)
    (hostUrl : string) net this :
  configured (opt_hostUrl (options this)) hostUrl ->
  net (send_request this hostUrl payload (default Event type)) = TimerFires ->
  exists timeout base,
    send payload type net this =
      mkRun this
        [SetTimeout timeout;
         Fetch (send_request this hostUrl payload (default Event type));
         Abort; ClearTimeout]
        (inl (Timeout base timeout)) /\
    code base = "TIMEOUT_ERROR" /\ name base = "TimeoutError" /\
    message base = "Request timed out after " +:+ Number_toString timeout +:+ "ms" /\
    (forall t, read (opt_timeout (options this)) = Some t -> timeout = t) /\
    (read (opt_timeout (options this)) = None -> timeout = 10000%float).
Proof.
  intros Hhost Hnet.
  exists (default 10000%float (read (opt_timeout (options this)))). eexists.
  split; [exact (send_timer_fires payload type net this hostUrl Hhost Hnet)|].
  repeat split.
  - intros t Ht. now rewrite Ht.
  - intros Ht. now rewrite Ht.
Qed.


(** X3: with [hostUrl] configured, a response that is [ok] is what [send]
    returns, untouched, whatever its status and body. *)
Theorem send_returns_ok_response (payload : EntrolyticsPayload) (type : option SendType)
    (hostUrl : string) (response : Response) net this :
  configured (opt_hostUrl (options this)) hostUrl ->
  net (send_request this hostUrl payload (default Event type)) = Responds response ->
  ok response = true ->
  outcome (send payload type net this) = inr response /\
  final (send payload type net this) = this.
Proof.
  intros Hhost Hnet Hok.
  rewrite (send_responds_ok payload type net this hostUrl Hhost response Hnet Hok).
  split; reflexivity.
Qed.

(** X4: on a 429, [send] throws a rate-limit error with status code 429;
    it carries the integer the [Retry-After] header starts with, and no
    value when the header is absent or empty. *)
Theorem send_rate_limit (payload : EntrolyticsPayload) (type : option SendType)
    (hostUrl : string) (response : Response) net this :
  configured (opt_hostUrl (options this)) hostUrl ->
  net (send_request this hostUrl payload (default Event type)) = Responds response ->
  ok response = false -> status response = 429 ->
  exists base retryAfter,
    outcome (send payload type net this) = inl (RateLimit base retryAfter) /\
    statusCode base = Some 429 /\ code base = "RATE_LIMIT_ERROR" /\
    message base = "Rate limit exceeded" /\
    (forall h negative seconds,
       headers_get response "Retry-After" = Some h ->
       parse_integer h = Some (negative, seconds) ->
       retryAfter = Some (number_of_Z negative seconds)) /\
    (truthy truthy_string (headers_get response "Retry-After") = false ->
     retryAfter = None).
Proof.
  intros Hhost Hnet Hok H429.
  rewrite (send_rate_limited payload type net this hostUrl Hhost response Hnet Hok H429).
  cbn. eexists. eexists. split; [reflexivity|]. repeat split.
  - intros h negative seconds Hheader Hparse. rewrite Hheader.
    destruct h as [|c rest]; [discriminate Hparse|]. cbn [truthy_string].
    unfold parseInt. now rewrite Hparse.
  - intros Hheader. destruct (headers_get response "Retry-After") as [h|]; [|reflexivity].
    cbn in Hheader. now rewrite Hheader.
Qed.

(** X5: on a response that is not [ok] and not a 429, [send] throws an API
    error with the status code and the response; its body is what [json()]
    gives, and what [text()] gives when [json()] rejects and [text()] does
    not. *)
Theorem send_api_error (payload : EntrolyticsPayload) (type : option SendType)
    (hostUrl : string) (response : Response) net this :
  configured (opt_hostUrl (options this)) hostUrl ->
  net (send_request this hostUrl payload (default Event type)) = Responds response ->
  ok response = false -> status response <> 429 ->
  (forall body, json response = inr body ->
     outcome (send payload type net this) =
       inl (ApiError ("HTTP error! status: " +:+ string_of_status (status response))
              (status response) (Some response) (Some body))) /\
  (forall e t, json response = inl e -> text response = inr t ->
     outcome (send payload type net this) =
       inl (ApiError ("HTTP error! status: " +:+ string_of_status (status response))
              (status response) (Some response) (Some (JStr t)))).
Proof.
  intros Hhost Hnet Hok H429. split.
  - intros body Hjson.
    now rewrite (send_api_error_json payload type net this hostUrl Hhost response body
                   Hnet Hok H429 Hjson).
  - intros e t Hjson Htext.
    now rewrite (send_api_error_text payload type net this hostUrl Hhost response e t
                   Hnet Hok H429 Hjson Htext).
Qed.

(** X6: when the fetch rejects by itself, [send] wraps a [TypeError] into a
    network error that keeps the message and the original error, and
    rethrows any other value as it is. *)
Theorem send_fetch_rejects (payload : EntrolyticsPayload) (type : option SendType)
    (hostUrl : string) (e : Foreign) net this :
  configured (opt_hostUrl (options this)) hostUrl ->
  net (send_request this hostUrl payload (default Event type)) = Rejects e ->
  looks_aborted e = false ->
  (foreign_instanceof_TypeError e = true ->
   outcome (send payload type net this) =
     inl (NetworkError ("Network request failed: " +:+ foreign_message e) (Some e))) /\
  (foreign_instanceof_TypeError e = false ->
   outcome (send payload type net this) = inl (Thrown_foreign e)).
Proof.
  intros Hhost Hnet Habort. unfold looks_aborted in Habort.
  split; intros Htype; unfold send; pass_guard Hhost; rewrite Hnet; cbn;
    rewrite Habort, Htype; reflexivity.
Qed.


Lemma send_catch_kind (timeout : float) (error e : Thrown) net this :
  thrown_by_send error = true ->
  outcome (send_catch timeout error net this) = inl e ->
  thrown_by_send e = true /\ (isConfigurationError e = true -> isConfigurationError error = true).
Proof.
  intros Herr. unfold send_catch.
  destruct (isConfigurationError error || isApiError error || isRateLimitError error);
    [intros [= <-]; now split|].
  destruct (instanceof_Error error && String.eqb (error_name error) "AbortError");
    [intros [= <-]; split; [reflexivity|discriminate]|].
  destruct (instanceof_TypeError error); intros [= <-];
    [split; [reflexivity|discriminate]|now split].
Qed.

Lemma send_not_ok_kind (response : Response) (e : Thrown) net this :
  outcome (send_not_ok response net this) = inl e ->
  thrown_by_send e = true /\ isConfigurationError e = false.
Proof.
  unfold send_not_ok. destruct (status response =? 429); [intros [= <-]; now split|].
  run. destruct (json response) as [j|body]; cbn; [|intros [= <-]; now split].
  destruct (text response) as [j'|t]; cbn; intros [= <-]; now split.
Qed.

(** X8: whatever the network does, [send] throws neither a validation error
    nor a bare [EntrolyticsError], and the only configuration error it
    throws is the one for a missing [hostUrl]. *)
Theorem send_throws (payload : EntrolyticsPayload) (type : option SendType) (e : Thrown)
    net this :
  outcome (send payload type net this) = inl e ->
  thrown_by_send e = true /\
  isValidationError e = false /\
  (isConfigurationError e = true ->
   e = hostUrl_required /\ unset (opt_hostUrl (options this))).
Proof.
  intros Hout.
  enough (H : thrown_by_send e = true /\
              (isConfigurationError e = true ->
               e = hostUrl_required /\ unset (opt_hostUrl (options this)))).
  { destruct H as [Hkind Hconfig]. split; [exact Hkind|]. split; [|exact Hconfig].
    destruct e; try reflexivity; discriminate Hkind. }
  revert Hout. unfold send. run. unfold unset.
  destruct (read (opt_hostUrl (options this))) as [h|]; cbn;
    [|intros [= <-]; now split].
  destruct (truthy_string h); cbn; [|intros [= <-]; now split].
  set (request := send_request this h payload (default Event type)).
  set (timeout := default 10000%float (read (opt_timeout (options this)))).
  destruct (net request) as [response| |f]; with_strategy opaque [send_catch send_not_ok] cbn.
  - destruct (ok response); with_strategy opaque [send_catch send_not_ok] cbn;
      [discriminate|].
    destruct (send_not_ok response net this) as [c es [e1|r]] eqn:E1;
      with_strategy opaque [send_catch] cbn; [|discriminate].
    destruct (send_catch timeout e1 net c) as [c' es' o'] eqn:E2. cbn. intros ->.
    destruct (send_not_ok_kind response e1 net this) as [Hk1 Hc1]; [now rewrite E1|].
    destruct (send_catch_kind timeout e1 e net c Hk1) as [Hk Hc]; [now rewrite E2|].
    split; [exact Hk|]. intros He. apply Hc in He. congruence.
  - intros [= <-]. split; [reflexivity|discriminate].
  - destruct (send_catch timeout (Thrown_foreign f) net this) as [c' es' o'] eqn:E2.
    cbn. intros ->.
    destruct (send_catch_kind timeout (Thrown_foreign f) e net this eq_refl) as [Hk Hc];
      [now rewrite E2|].
    split; [exact Hk|]. intros He. apply Hc in He. discriminate He.
Qed.

(** ** More on the collectors *)

Lemma send_clears_timer_shape (payload : EntrolyticsPayload) (type : option SendType)
    (hostUrl : string) net this :
  configured (opt_hostUrl (options this)) hostUrl ->
  effects (send payload type net this) =
    [SetTimeout (default 10000%float (read (opt_timeout (options this))));
     Fetch (send_request this hostUrl payload (default Event type)); ClearTimeout] \/
  effects (send payload type net this) =
    [SetTimeout (default 10000%float (read (opt_timeout (options this))));
     Fetch (send_request this hostUrl payload (default Event type)); Abort; ClearTimeout].
Proof.
  intros Hhost. unfold send. pass_guard Hhost.
  set (request := send_request this hostUrl payload (default Event type)).
  set (timeout := default 10000%float (read (opt_timeout (options this)))).
  destruct (net request) as [response| |e];
    with_strategy opaque [send_catch send_not_ok] cbn.
  - left. destruct (ok response); with_strategy opaque [send_catch send_not_ok] cbn;
      [reflexivity|].
    destruct (send_not_ok_throws response net this) as [e ->].
    with_strategy opaque [send_catch] cbn.
    destruct (send_catch_throws timeout e net this) as [e' ->]. reflexivity.
  - right. reflexivity.
  - left. destruct (send_catch_throws timeout (Thrown_foreign e) net this) as [e' ->].
    reflexivity.
Qed.

Lemma collect_one_request (url : string) (body : RequestBody) net this :
  one_request (effects (collect url body net this)) (collector_timeout this)
    (collector_request url body).
Proof.
  rewrite collect_run. cbn.
  destruct (net (collector_request url body)); cbn; [left|right|left]; reflexivity.
Qed.

(** X9: with [websiteId] and [hostUrl] configured, every run of a collector
    arms one timer, posts one request and clears the timer last, whether
    it returns or throws.  The request goes to [/api/collect/vitals] or
    [/api/collect/forms] under the host, with the content type as its only
    header and the payload with the website as body. *)
Theorem collectors_clear_timer (websiteId hostUrl : string) net this :
  configured (opt_websiteId (options this)) websiteId ->
  configured (opt_hostUrl (options this)) hostUrl ->
  let post path body :=
    mkRequest (hostUrl +:+ path) "POST" [("Content-Type", "application/json")] body in
  (forall opts,
     one_request (effects (trackVital opts net this)) (collector_timeout this)
       (post "/api/collect/vitals" (VitalBody websiteId (vital_payload opts)))) /\
  (forall opts,
     one_request (effects (trackVitalsBatch opts net this)) (collector_timeout this)
       (post "/api/collect/vitals"
          (VitalsBatchBody websiteId (List.map (batch_entry opts) (vb_vitals opts))))) /\
  (forall opts,
     one_request (effects (trackForm opts net this)) (collector_timeout this)
       (post "/api/collect/forms" (FormBody websiteId opts))) /\
  (forall opts,
     one_request (effects (trackFormBatch opts net this)) (collector_timeout this)
       (post "/api/collect/forms" (FormBatchBody websiteId (fb_events opts)))).
Proof.
  intros Hsite Hhost post. repeat split; intros opts.
  - rewrite (trackVital_collects _ _ _ _ _ Hsite Hhost). apply collect_one_request.
  - rewrite (trackVitalsBatch_collects _ _ _ _ _ Hsite Hhost). apply collect_one_request.
  - rewrite (trackForm_collects _ _ _ _ _ Hsite Hhost). apply collect_one_request.
  - rewrite (trackFormBatch_collects _ _ _ _ _ Hsite Hhost). apply collect_one_request.
Qed.

(** X10: with [websiteId] and [hostUrl] configured, a response that is [ok]
    is what each collector returns, and the client is as before. *)
Theorem collectors_return_ok_response (websiteId hostUrl : string) (response : Response)
    net this :
  configured (opt_websiteId (options this)) websiteId ->
  configured (opt_hostUrl (options this)) hostUrl ->
  (forall request, net request = Responds response) ->
  ok response = true ->
  (forall opts, outcome (trackVital opts net this) = inr response /\
                final (trackVital opts net this) = this) /\
  (forall opts, outcome (trackVitalsBatch opts net this) = inr response /\
                final (trackVitalsBatch opts net this) = this) /\
  (forall opts, outcome (trackForm opts net this) = inr response /\
                final (trackForm opts net this) = this) /\
  (forall opts, outcome (trackFormBatch opts net this) = inr response /\
                final (trackFormBatch opts net this) = this).
Proof.
  intros Hsite Hhost Hnet Hok.
  assert (Hcollect : forall url body,
            outcome (collect url body net this) = inr response /\
            final (collect url body net this) = this).
  { intros url body. rewrite collect_run. cbn. rewrite Hnet, Hok. split; reflexivity. }
  repeat split; intros.
  - rewrite (trackVital_collects _ _ _ _ _ Hsite Hhost). apply Hcollect.
  - rewrite (trackVital_collects _ _ _ _ _ Hsite Hhost). apply Hcollect.
  - rewrite (trackVitalsBatch_collects _ _ _ _ _ Hsite Hhost). apply Hcollect.
  - rewrite (trackVitalsBatch_collects _ _ _ _ _ Hsite Hhost). apply Hcollect.
  - rewrite (trackForm_collects _ _ _ _ _ Hsite Hhost). apply Hcollect.
  - rewrite (trackForm_collects _ _ _ _ _ Hsite Hhost). apply Hcollect.
  - rewrite (trackFormBatch_collects _ _ _ _ _ Hsite Hhost). apply Hcollect.
  - rewrite (trackFormBatch_collects _ _ _ _ _ Hsite Hhost). apply Hcollect.
Qed.

(** X11: the timer of a collector is armed for the configured [timeout]
    when that is a number other than zero and [NaN], and for 10000
    otherwise, so never for zero or [NaN]; [send] arms the configured
    number whatever it is. *)
Theorem collector_timeout_rule (this : Entrolytics) :
  truthy_number (collector_timeout this) = true /\
  (forall t, read (opt_timeout (options this)) = Some t -> truthy_number t = true ->
             collector_timeout this = t) /\
  (truthy truthy_number (read (opt_timeout (options this))) = false ->
   collector_timeout this = 10000%float) /\
  (forall url body net,
     exists rest, effects (collect url body net this) =
                    SetTimeout (collector_timeout this) :: rest) /\
  (forall payload type net hostUrl t,
     configured (opt_hostUrl (options this)) hostUrl ->
     read (opt_timeout (options this)) = Some t ->
     exists rest, effects (send payload type net this) = SetTimeout t :: rest).
Proof.
  unfold collector_timeout. split; [|split; [|split; [|split]]].
  - destruct (read (opt_timeout (options this))) as [t|]; cbn; [|reflexivity].
    destruct (truthy_number t) eqn:Ht; [exact Ht|reflexivity].
  - intros t -> Ht. cbn. now rewrite Ht.
  - intros ->. reflexivity.
  - intros url body net. rewrite collect_run. cbn.
    destruct (net (collector_request url body)); eexists; reflexivity.
  - intros payload type net hostUrl t Hhost Ht.
    destruct (send_clears_timer_shape payload type hostUrl net this Hhost) as [H|H];
      rewrite H, Ht; eexists; reflexivity.
Qed.

Lemma batch_entries (opts : TrackVitalsBatchOptions) (vitals : list TrackVitalOptions) :
  Forall2 (batched opts) vitals (List.map (batch_entry opts) vitals).
Proof.
  induction vitals as [|v rest IH]; cbn; constructor; [|exact IH].
  unfold batched. cbn. repeat split.
Qed.

(** X12: [trackVitalsBatch] sends one entry for each vital it is given, in
    the same order and with the same measurement, and gives every entry the
    [url] and [path] of the batch, also an entry that came with its own. *)
Theorem trackVitalsBatch_entries (opts : TrackVitalsBatchOptions)
    (websiteId hostUrl : string) net this :
  configured (opt_websiteId (options this)) websiteId ->
  configured (opt_hostUrl (options this)) hostUrl ->
  exists entries,
    dispatched (effects (trackVitalsBatch opts net this)) =
      [VitalsBatchBody websiteId entries] /\
    length entries = length (vb_vitals opts) /\
    Forall2 (batched opts) (vb_vitals opts) entries.
Proof.
  intros Hsite Hhost. exists (List.map (batch_entry opts) (vb_vitals opts)).
  split; [|split; [apply length_map|apply batch_entries]].
  rewrite (trackVitalsBatch_collects _ _ _ _ _ Hsite Hhost), collect_run. cbn.
  destruct (net _); reflexivity.
Qed.

(** ** Configuration and deployment *)

Lemma spread_missing {A : Type} (base : field A) : spread base missing = base.
Proof. reflexivity. Qed.

Lemma spread_assoc {A : Type} (base a b : field A) :
  spread (spread base a) b = spread base (spread a b).
Proof. destruct b, a; reflexivity. Qed.

Lemma spread_idem {A : Type} (base over : field A) :
  spread (spread base over) over = spread base over.
Proof. destruct over; reflexivity. Qed.

Lemma or_else_idem {A : Type} (t : A -> bool) (a b : option A) :
  or_else t a (or_else t a b) = or_else t a b.
Proof. unfold or_else. destruct (truthy t a); reflexivity. Qed.

(** X13: [init] merges: with [{}] it changes nothing, two calls in a row
    are one call with the merged options, a key that is left out keeps its
    value, and a key that is given replaces it, also when it is given as
    [undefined]; the bag and the deployment record are not touched. *)
Theorem init_merges (a b : EntrolyticsOptions) (this : Entrolytics) :
  init no_options this = this /\
  init b (init a this) = init (spread_options a b) this /\
  properties (init a this) = properties this /\
  deploymentInfo (init a this) = deploymentInfo this /\
  (opt_hostUrl a = missing ->
   opt_hostUrl (options (init a this)) = opt_hostUrl (options this)) /\
  (forall v, opt_hostUrl a = given v -> read (opt_hostUrl (options (init a this))) = v) /\
  (opt_timeout a = missing ->
   opt_timeout (options (init a this)) = opt_timeout (options this)) /\
  (forall v, opt_timeout a = given v -> read (opt_timeout (options (init a this))) = v).
Proof.
  split; [|split; [|split; [|split; [|split; [|split; [|split]]]]]].
  - destruct this as [o p d]. destruct o. reflexivity.
  - unfold init, spread_options. cbn. now rewrite !spread_assoc.
  - reflexivity.
  - reflexivity.
  - intros H. cbn. now rewrite H.
  - intros v H. cbn. now rewrite H.
  - intros H. cbn. now rewrite H.
  - intros v H. cbn. now rewrite H.
Qed.

(** X14: [init] with [hostUrl] given as [undefined] or empty takes the host
    away: [send] then fails at once with the configuration error for
    [hostUrl], whatever host the client had. *)
Theorem init_can_unset_hostUrl (opts : EntrolyticsOptions) (v : option string)
    (payload : EntrolyticsPayload) (type : option SendType) net this :
  opt_hostUrl opts = given v -> truthy truthy_string v = false ->
  send payload type net (init opts this) = failed_fast (init opts this) hostUrl_required.
Proof.
  intros Hgiven Hv. apply send_unset. unfold unset. cbn. now rewrite Hgiven.
Qed.

(** X15: constructing with options is constructing without and then
    [init]; the bag starts empty, the deployment record is what was
    detected, [timeout] and [endpoint] default to 10000 and to the standard
    path, and a [deployId] passed to the constructor goes to the
    configuration only, not to the deployment record. *)
Theorem constructor_defaults (arg : option EntrolyticsOptions) :
  let opts := default no_options arg in
  constructor arg = init opts (constructor None) /\
  properties (constructor arg) = ∅ /\
  getDeployment (constructor arg) = detectDeploymentInfo /\
  (opt_timeout opts = missing ->
   read (opt_timeout (options (constructor arg))) = Some 10000%float) /\
  (opt_endpoint opts = missing -> getEndpointPath (constructor arg) = "/api/send") /\
  (forall v, opt_deployId opts = given v ->
     read (opt_deployId (options (constructor arg))) = v /\
     d_deployId (getDeployment (constructor arg)) = d_deployId detectDeploymentInfo) /\
  (opt_deployId opts = missing ->
   read (opt_deployId (options (constructor arg))) = read (d_deployId detectDeploymentInfo)).
Proof.
  intros opts. split; [reflexivity|]. split; [reflexivity|]. split; [reflexivity|].
  split; [|split; [|split]].
  - intros H. cbn. fold opts. now rewrite H.
  - intros H. unfold getEndpointPath. cbn. fold opts. now rewrite H.
  - intros v H. cbn. fold opts. now rewrite H.
  - intros H. cbn. fold opts. now rewrite H.
Qed.

Lemma or_else_first_truthy (a b : option string) :
  or_else truthy_string a b = if truthy truthy_string a then a else b.
Proof. reflexivity. Qed.

Lemma first_truthy_filled (candidates : list (option string)) :
  match first_truthy candidates with
  | Some s => truthy_string s = true
  | None => True
  end.
Proof.
  induction candidates as [|c rest IH]; cbn; [exact I|].
  destruct c as [s|]; cbn; [|exact IH].
  destruct (truthy_string s) eqn:Hs; [exact Hs|exact IH].
Qed.

(** Decides which of the candidates of a detected field are there and not
    empty. *)
Ltac decide_candidates :=
  repeat match goal with
    | |- context [env_var ?e ?k] =>
        let v := fresh "v" in
        destruct (env_var e k) as [[|? ?]|]; cbn
    end;
  try reflexivity.

(** X16: each field of the detected deployment is the first of its
    environment variables, in the order of the source, that is set and not
    empty, and [undefined] when none is; the deploy URL is [VERCEL_URL]
    behind [https://] when that is set.  So no detected field is ever the
    empty string. *)
Theorem detectDeploymentInfo_priority :
  let e := env_var process_env in
  let detected := detectDeploymentInfo in
  d_deployId detected =
    given (first_truthy [e "VERCEL_DEPLOYMENT_ID"; e "DEPLOY_ID"; e "CF_PAGES_COMMIT_SHA"]) /\
  d_gitSha detected =
    given (first_truthy [e "VERCEL_GIT_COMMIT_SHA"; e "COMMIT_REF";
                         e "CF_PAGES_COMMIT_SHA"; e "GITHUB_SHA"]) /\
  d_gitBranch detected =
    given (first_truthy [e "VERCEL_GIT_COMMIT_REF"; e "BRANCH";
                         e "CF_PAGES_BRANCH"; e "GITHUB_REF_NAME"]) /\
  d_deployUrl detected =
    given (match first_truthy [e "VERCEL_URL"] with
           | Some host => Some ("https://" +:+ host)
           | None => first_truthy [e "DEPLOY_URL"; e "CF_PAGES_URL"]
           end) /\
  read (d_deployId detected) <> Some EmptyString /\
  read (d_gitSha detected) <> Some EmptyString /\
  read (d_gitBranch detected) <> Some EmptyString /\
  read (d_deployUrl detected) <> Some EmptyString.
Proof.
  intros e detected.
  assert (Hid : d_deployId detected =
    given (first_truthy [e "VERCEL_DEPLOYMENT_ID"; e "DEPLOY_ID"; e "CF_PAGES_COMMIT_SHA"])).
  { unfold detected, detectDeploymentInfo, e, process_env. cbn. unfold or_else.
    decide_candidates. }
  assert (Hsha : d_gitSha detected =
    given (first_truthy [e "VERCEL_GIT_COMMIT_SHA"; e "COMMIT_REF";
                         e "CF_PAGES_COMMIT_SHA"; e "GITHUB_SHA"])).
  { unfold detected, detectDeploymentInfo, e, process_env. cbn. unfold or_else.
    decide_candidates. }
  assert (Hbranch : d_gitBranch detected =
    given (first_truthy [e "VERCEL_GIT_COMMIT_REF"; e "BRANCH";
                         e "CF_PAGES_BRANCH"; e "GITHUB_REF_NAME"])).
  { unfold detected, detectDeploymentInfo, e, process_env. cbn. unfold or_else.
    decide_candidates. }
  assert (Hurl : d_deployUrl detected =
    given (match first_truthy [e "VERCEL_URL"] with
           | Some host => Some ("https://" +:+ host)
           | None => first_truthy [e "DEPLOY_URL"; e "CF_PAGES_URL"]
           end)).
  { unfold detected, detectDeploymentInfo, e, process_env. cbn. unfold or_else.
    decide_candidates. }
  split; [exact Hid|]. split; [exact Hsha|]. split; [exact Hbranch|].
  split; [exact Hurl|].
  rewrite Hid, Hsha, Hbranch, Hurl. cbn [read given].
  repeat split.
  - intros H. pose proof (first_truthy_filled
      [e "VERCEL_DEPLOYMENT_ID"; e "DEPLOY_ID"; e "CF_PAGES_COMMIT_SHA"]) as F.
    rewrite H in F. discriminate F.
  - intros H. pose proof (first_truthy_filled
      [e "VERCEL_GIT_COMMIT_SHA"; e "COMMIT_REF"; e "CF_PAGES_COMMIT_SHA"; e "GITHUB_SHA"])
      as F.
    rewrite H in F. discriminate F.
  - intros H. pose proof (first_truthy_filled
      [e "VERCEL_GIT_COMMIT_REF"; e "BRANCH"; e "CF_PAGES_BRANCH"; e "GITHUB_REF_NAME"])
      as F.
    rewrite H in F. discriminate F.
  - destruct (first_truthy [e "VERCEL_URL"]) as [host|]; [discriminate|].
    intros H. pose proof (first_truthy_filled [e "DEPLOY_URL"; e "CF_PAGES_URL"]) as F.
    rewrite H in F. discriminate F.
Qed.

(** ** The property bag *)

(** X17: a property set under a key other than ["__proto__"] is read back
    under that key and the other keys keep their values; clearing the key
    takes it out again, which gives back the client as it was when the key
    was not there before; clearing a key that is not there changes nothing;
    [reset] empties the bag. *)
Theorem property_round_trip (key : string) (value : Scalar) (this : Entrolytics) :
  key <> "__proto__" ->
  getProperties (setProperty key value this) !! key = Some value /\
  (forall k, k <> key ->
     getProperties (setProperty key value this) !! k = getProperties this !! k) /\
  getProperties (clearProperty key (setProperty key value this)) !! key = None /\
  (forall k, k <> key ->
     getProperties (clearProperty key this) !! k = getProperties this !! k) /\
  (getProperties this !! key = None ->
   clearProperty key (setProperty key value this) = this /\ clearProperty key this = this) /\
  getProperties (reset (setProperty key value this)) = ∅.
Proof.
  intros Hkey. apply String.eqb_neq in Hkey.
  unfold getProperties, setProperty, clearProperty, reset. cbn. rewrite Hkey.
  split; [apply lookup_insert_eq|]. split; [|split; [|split; [|split]]].
  - intros k Hk. now rewrite lookup_insert_ne.
  - apply lookup_delete_eq.
  - intros k Hk. now rewrite lookup_delete_ne.
  - intros Hnone. destruct this as [o p d]. cbn in *.
    rewrite delete_insert_id, delete_id by exact Hnone. split; reflexivity.
  - reflexivity.
Qed.

(** X18: [setProperties] merges key by key, its argument winning; with an
    empty argument it changes nothing; and with one key other than
    ["__proto__"] it does what [setProperty] does. *)
Theorem setProperties_merges (props : gmap string Scalar) (this : Entrolytics) :
  (forall k, getProperties (setProperties props this) !! k =
               match props !! k with
               | Some v => Some v
               | None => getProperties this !! k
               end) /\
  setProperties ∅ this = this /\
  (forall key value, key <> "__proto__" ->
     setProperties {[key := value]} this = setProperty key value this) /\
  options (setProperties props this) = options this /\
  getDeployment (setProperties props this) = getDeployment this.
Proof.
  split; [|split; [|split; [|split]]].
  - intros k. unfold getProperties, setProperties. cbn. rewrite lookup_union.
    destruct (props !! k), (properties this !! k); reflexivity.
  - destruct this as [o p d]. unfold setProperties. cbn. now rewrite (left_id_L ∅ (∪)).
  - intros key value Hkey. apply String.eqb_neq in Hkey.
    unfold setProperties, setProperty. rewrite Hkey.
    now rewrite insert_union_singleton_l.
  - reflexivity.
  - reflexivity.
Qed.

(** ** More on [identify] *)

Lemma identified_nothing (this : Entrolytics) : identified no_identify_options this = this.
Proof.
  destruct this as [o p d]. unfold identified, identify_entries. cbn.
  now rewrite delete_empty, (left_id_L ∅ (∪)).
Qed.

(** X19: with [websiteId] configured and [hostUrl] not, [identify] fails
    with the configuration error for [hostUrl] and puts nothing on the
    network, but its argument is merged into the bag all the same. *)
Theorem identify_merges_before_send_fails (arg : option IdentifyOptions)
    (websiteId : string) net this :
  configured (opt_websiteId (options this)) websiteId ->
  unset (opt_hostUrl (options this)) ->
  let props := default no_identify_options arg in
  identify arg net this =
    mkRun (setProperties (identify_entries props) this) [] (inl hostUrl_required).
Proof.
  intros Hsite Hhost props.
  rewrite (identify_sends arg websiteId net this Hsite).
  now rewrite send_unset by exact Hhost.
Qed.

(** X20: with [websiteId] configured, [identify] changes the bag as
    [setProperties] on the keys of its argument does; called without an
    argument it leaves the client as it was and sends the bag as it is,
    under the configured session. *)
Theorem identify_like_setProperties (arg : option IdentifyOptions) (websiteId : string)
    net this :
  configured (opt_websiteId (options this)) websiteId ->
  final (identify arg net this) =
    setProperties (identify_entries (default no_identify_options arg)) this /\
  final (identify None net this) = this /\
  identify None net this =
    send (mkPayload websiteId (given (read (opt_sessionId (options this))))
            missing missing missing missing missing missing missing
            (given (Some (properties this))))
      (Some Identify) net this.
Proof.
  intros Hsite. split; [|split].
  - rewrite (identify_sends arg websiteId net this Hsite). apply send_final.
  - rewrite (identify_sends None websiteId net this Hsite), send_final.
    apply identified_nothing.
  - rewrite (identify_sends None websiteId net this Hsite). cbn [default].
    rewrite identified_nothing. reflexivity.
Qed.

(** X21: the session that [identify] takes from its argument holds for that
    call only: the session of a later [identify] is read from its own
    argument and the configuration, which the earlier call did not change,
    though the bag sent as data still has the earlier [sessionId]. *)
Theorem identify_session_this_call_only (first second : IdentifyOptions)
    (s websiteId : string) net net' this :
  configured (opt_websiteId (options this)) websiteId ->
  id_sessionId first = given (Some s) ->
  id_sessionId second = missing ->
  let this1 := final (identify (Some first) net this) in
  exists payload,
    identify (Some second) net' this1 =
      send payload (Some Identify) net' (identified second this1) /\
    read (p_session payload) = read (opt_sessionId (options this)) /\
    (exists bag, read (p_data payload) = Some bag /\ bag !! "sessionId" = Some (SString s)).
Proof.
  intros Hsite Hfirst Hsecond this1.
  assert (Hfinal : this1 = identified first this).
  { unfold this1. rewrite (identify_sends (Some first) websiteId net this Hsite).
    apply send_final. }
  assert (Hsite1 : configured (opt_websiteId (options this1)) websiteId)
    by (rewrite Hfinal; exact Hsite).
  eexists. split; [exact (identify_sends (Some second) websiteId net' this1 Hsite1)|].
  split.
  - cbn. rewrite Hsecond, Hfinal. reflexivity.
  - assert (E1 : identify_entries first !! "sessionId" = Some (SString s)).
    { unfold identify_entries. rewrite Hfirst. apply lookup_insert_eq. }
    assert (E2 : identify_entries second !! "sessionId" = None).
    { unfold identify_entries. rewrite Hsecond. apply lookup_delete_eq. }
    eexists. split; [reflexivity|]. cbn [default]. unfold id.
    rewrite identified_lookup, E2, Hfinal, identified_lookup, E1. reflexivity.
Qed.

(** ** More on the event methods *)

(** X22: for a name that is not empty, [track(name, data)] is
    [trackEvent({ name, data })]: on every client and network the two calls
    run alike, effect by effect. *)
Theorem track_name_is_trackEvent (s : string) (d : EventData) net this :
  truthy_string s = true ->
  track (EventName s) (Some d) net this = trackEvent (name_and_data s d) net this.
Proof.
  intros Hs. unfold track, trackEvent.
  unfold mbind, M_bind, bind, get_this. with_strategy opaque [send] cbn.
  destruct (required (read (opt_websiteId (options this))) websiteId_required net this)
    as [c es [e|w]]; with_strategy opaque [send] cbn; [reflexivity|].
  rewrite Hs. reflexivity.
Qed.

(** X23: [trackPageView] and [trackEvent] send their options alike, as one
    event payload under the website: on options with a [url] and a [name]
    the two calls run alike, and with [hostUrl] configured the payload on
    the network has every key of the options, [name] and [data] included,
    and no session. *)
Theorem page_view_and_event_payload (opts : TrackOptions) (websiteId : string) net this :
  configured (opt_websiteId (options this)) websiteId ->
  truthy truthy_string (read (t_url opts)) = true ->
  truthy truthy_string (read (t_name opts)) = true ->
  trackPageView opts net this = trackEvent opts net this /\
  (forall hostUrl, configured (opt_hostUrl (options this)) hostUrl ->
     dispatched (effects (trackPageView opts net this)) =
       [SendBody Event
          (mkPayload websiteId missing (t_hostname opts) (t_language opts) (t_referrer opts)
             (t_screen opts) (t_title opts) (t_url opts) (t_name opts) (t_data opts))]).
Proof.
  intros Hsite Hurl Hname.
  rewrite (trackPageView_sends opts websiteId net this Hsite Hurl).
  rewrite (trackEvent_sends opts websiteId net this Hsite Hname).
  split; [reflexivity|].
  intros hostUrl Hhost. exact (send_dispatched _ None net this hostUrl Hhost).
Qed.

(** ** What every call keeps *)

Lemma send_quiet_or_one_request (payload : EntrolyticsPayload) (type : option SendType)
    net this :
  quiet_or_one_request (effects (send payload type net this)).
Proof.
  destruct (read (opt_hostUrl (options this))) as [h|] eqn:Hh.
  - destruct (truthy_string h) eqn:Ht.
    + right. eexists. eexists.
      destruct (send_clears_timer_shape payload type h net this (conj Hh Ht)) as [H|H];
        rewrite H; [left|right]; reflexivity.
    + left. rewrite send_unset; [reflexivity|]. unfold unset. rewrite Hh. exact Ht.
  - left. rewrite send_unset; [reflexivity|]. unfold unset. now rewrite Hh.
Qed.

Lemma collect_quiet_or_one_request (url : string) (body : RequestBody) net this :
  quiet_or_one_request (effects (collect url body net this)).
Proof. right. eexists. eexists. apply collect_one_request. Qed.

(** After its guard on [websiteId] a collector tests [hostUrl] and
    collects. *)
Ltac collector_effects this :=
  split_guard this; try (left; reflexivity);
  destruct (read (opt_hostUrl (options this))) as [h|];
  with_strategy opaque [collect] cbn; try (left; reflexivity);
  destruct (truthy_string h); with_strategy opaque [collect] cbn; try (left; reflexivity);
  apply collect_quiet_or_one_request.

Lemma call_quiet_or_one_request (c : Call) (this : Entrolytics) :
  quiet_or_one_request (call_effects c this).
Proof.
  destruct c; cbn [call_effects]; try (left; reflexivity).
  - apply send_quiet_or_one_request.
  - unfold trackPageView. split_guard this; try (left; reflexivity).
    destruct (truthy truthy_string (read (t_url opts)));
      with_strategy opaque [send] cbn;
      [apply send_quiet_or_one_request|left; reflexivity].
  - unfold trackEvent. split_guard this; try (left; reflexivity).
    destruct (truthy truthy_string (read (t_name opts)));
      with_strategy opaque [send] cbn;
      [apply send_quiet_or_one_request|left; reflexivity].
  - unfold track. split_guard this; try (left; reflexivity).
    apply send_quiet_or_one_request.
  - unfold identify. split_guard this; try (left; reflexivity).
    apply send_quiet_or_one_request.
  - unfold trackVital, required. collector_effects this.
  - unfold trackVitalsBatch, required. collector_effects this.
  - unfold trackForm, required. collector_effects this.
  - unfold trackFormBatch, required. collector_effects this.
Qed.

(** X24: no call of any method, on any client and network, puts more than
    one request on the network, and every call clears as many timers as it
    arms: none when it stops at a guard, one otherwise. *)
Theorem call_one_request_at_most (c : Call) (this : Entrolytics) :
  (length (dispatched (call_effects c this)) <= 1)%nat /\
  armed (call_effects c this) = cleared (call_effects c this) /\
  (armed (call_effects c this) <= 1)%nat /\
  length (dispatched (call_effects c this)) = armed (call_effects c this).
Proof.
  destruct (call_quiet_or_one_request c this) as [->|(timeout & request & [->| ->])];
    cbn; repeat split; lia.
Qed.

Lemma after_keeps_configuration (c : Call) (this : Entrolytics) :
  match c with
  | CallInit _ => True
  | CallSetDeployment _ => True
  | _ => options (after c this) = options this /\
         deploymentInfo (after c this) = deploymentInfo this
  end.
Proof.
  destruct c; cbn [after]; try exact I; try (split; reflexivity).
  - now rewrite send_final.
  - now rewrite trackPageView_final.
  - now rewrite trackEvent_final.
  - now rewrite track_final.
  - destruct (identify_final arg net this) as [-> | ->]; split; reflexivity.
  - now rewrite trackVital_final.
  - now rewrite trackVitalsBatch_final.
  - now rewrite trackForm_final.
  - now rewrite trackFormBatch_final.
Qed.

(** X25: what each call leaves alone.  Only [init] and [setDeployment]
    change the configuration and only [setDeployment] the deployment
    record; apart from [identify] no asynchronous method changes the client
    at all, however it settles; [init] and [setDeployment] leave the bag
    alone. *)
Theorem call_frame (c : Call) (this : Entrolytics) :
  match c with
  | CallInit _ =>
      properties (after c this) = properties this /\
      deploymentInfo (after c this) = deploymentInfo this
  | CallSetDeployment _ => properties (after c this) = properties this
  | CallIdentify _ _ | CallSetProperty _ _ | CallSetProperties _ | CallReset
  | CallClearProperty _ =>
      options (after c this) = options this /\
      deploymentInfo (after c this) = deploymentInfo this
  | _ => after c this = this
  end.
Proof.
  destruct c; cbn [after]; try (split; reflexivity); try reflexivity.
  - apply send_final.
  - apply trackPageView_final.
  - apply trackEvent_final.
  - apply track_final.
  - exact (after_keeps_configuration (CallIdentify arg net) this).
  - apply trackVital_final.
  - apply trackVitalsBatch_final.
  - apply trackForm_final.
  - apply trackFormBatch_final.
Qed.

(** ** More on deployment information *)

(** X26: [setDeployment] is idempotent: a second call with the same
    argument changes nothing more. *)
Theorem setDeployment_idempotent (deployment : DeploymentInfo) (this : Entrolytics) :
  setDeployment deployment (setDeployment deployment this) = setDeployment deployment this.
Proof.
  unfold setDeployment, spread_deployment. cbn.
  rewrite !spread_idem, !or_else_idem. reflexivity.
Qed.

Lemma setDeployment_keeps_sync (deployment : DeploymentInfo) (this : Entrolytics) :
  left_out_or_filled (d_deployId deployment) ->
  left_out_or_filled (d_gitSha deployment) ->
  left_out_or_filled (d_gitBranch deployment) ->
  in_sync this -> in_sync (setDeployment deployment this).
Proof.
  intros [Hid|(i & Hid & Hi)] [Hsha|(s & Hsha & Hs)] [Hbranch|(b & Hbranch & Hb)]
    (Sid & Ssha & Sbranch);
    unfold in_sync; cbn; rewrite Hid, Hsha, Hbranch; cbn; unfold or_else; cbn;
    rewrite ?Hi, ?Hs, ?Hb; repeat split; assumption.
Qed.

Lemma after_keeps_sync (c : Call) (this : Entrolytics) :
  keeps_sync c -> in_sync this -> in_sync (after c this).
Proof.
  intros Hc Hsync. destruct c; try contradiction Hc;
    lazymatch goal with
    | |- in_sync (after (CallSetDeployment _) _) =>
        destruct Hc as (Hid & Hsha & Hbranch); cbn [after];
        now apply setDeployment_keeps_sync
    | |- in_sync (after ?c this) =>
        destruct (after_keeps_configuration c this) as [Ho Hd];
        unfold in_sync; rewrite Ho, Hd; exact Hsync
    end.
Qed.

(** X27: a client constructed without options has its deployment record
    and the mirrored configuration fields in step, and they stay in step
    through every sequence of calls that has no [init] and whose
    [setDeployment] arguments have no key that is empty or [undefined]. *)
Theorem deployment_copies_in_sync (cs : list Call) :
  Forall keeps_sync cs ->
  in_sync (constructor None) /\ in_sync (after_all cs (constructor None)).
Proof.
  intros Hcs.
  assert (Hstart : in_sync (constructor None)) by (repeat split).
  split; [exact Hstart|].
  revert Hstart. generalize (constructor None).
  induction Hcs as [|c rest Hc _ IH]; intros this Hthis; cbn; [exact Hthis|].
  apply IH, after_keeps_sync; assumption.
Qed.

(** ** API errors of [send] *)

Lemma send_catch_api (timeout : float) (error : Thrown) (base : EntrolyticsError)
    (response : option Response) (body : option Json) net this :
  outcome (send_catch timeout error net this) = inl (Api base response body) ->
  error = Api base response body.
Proof.
  unfold send_catch.
  destruct (isConfigurationError error || isApiError error || isRateLimitError error);
    [intros [= <-]; reflexivity|].
  destruct (instanceof_Error error && String.eqb (error_name error) "AbortError");
    [discriminate|].
  destruct (instanceof_TypeError error); [discriminate|].
  intros [= <-]. reflexivity.
Qed.

(** X28: an API error thrown by [send] comes from a response that is not
    [ok], carries that response and its status code, and its status is
    never 429. *)
Theorem send_api_error_origin (payload : EntrolyticsPayload) (type : option SendType)
    (base : EntrolyticsError) (carried : option Response) (body : option Json) net this :
  outcome (send payload type net this) = inl (Api base carried body) ->
  exists response,
    carried = Some response /\ ok response = false /\ status response <> 429 /\
    statusCode base = Some (status response) /\ code base = "API_ERROR".
Proof.
  unfold send. run.
  destruct (read (opt_hostUrl (options this))) as [h|]; cbn; [|discriminate].
  destruct (truthy_string h); cbn; [|discriminate].
  set (request := send_request this h payload (default Event type)).
  set (timeout := default 10000%float (read (opt_timeout (options this)))).
  destruct (net request) as [response| |f]; with_strategy opaque [send_catch send_not_ok] cbn.
  - destruct (ok response) eqn:Hok; with_strategy opaque [send_catch send_not_ok] cbn;
      [discriminate|].
    destruct (send_not_ok response net this) as [c es [e1|r]] eqn:E1;
      with_strategy opaque [send_catch] cbn; [|discriminate].
    destruct (send_catch timeout e1 net c) as [c' es' o'] eqn:E2. cbn. intros ->.
    assert (He1 : e1 = Api base carried body).
    { apply (send_catch_api timeout e1 base carried body net c). now rewrite E2. }
    subst e1. exists response. revert E1. unfold send_not_ok.
    destruct (status response =? 429) eqn:H429; [discriminate|].
    apply Z.eqb_neq in H429. run.
    destruct (json response) as [j|parsed]; cbn.
    + destruct (text response) as [j'|t]; cbn; [discriminate|].
      intros [= _ _ <- <- _]. repeat split; assumption.
    + intros [= _ _ <- <- _]. repeat split; assumption.
  - discriminate.
  - destruct (send_catch timeout (Thrown_foreign f) net this) as [c' es' o'] eqn:E2.
    cbn. intros ->.
    assert (He1 : Thrown_foreign f = Api base carried body).
    { apply (send_catch_api timeout _ base carried body net this). now rewrite E2. }
    discriminate He1.
Qed.

End Platform.

Arguments mkRun {A} _ _ _.
Arguments final {A} _.
Arguments effects {A} _.
Arguments outcome {A} _.
Arguments failed_fast {A} _ _.

(** ** The definitions at sample values *)

Example parseInt_reads_a_prefix :
  parseInt "30" = 30%float /\ parseInt " 120 seconds" = 120%float /\
  parseInt "-7" = (-7)%float /\ parseInt "+12" = 12%float.
Proof. repeat split. Qed.

Example parseInt_finds_no_number :
  parseInt "Wed, 21 Oct 2015 07:28:00 GMT" = nan /\ parseInt EmptyString = nan /\
  parseInt "soon" = nan.
Proof. repeat split. Qed.

Example status_in_a_message :
  string_of_status 429 = "429" /\ string_of_status 503 = "503" /\ string_of_status 0 = "0".
Proof. repeat split. Qed.

Example default_instance : constructor None None = fresh /\ constructor node None = fresh.
Proof. split; reflexivity. Qed.

(** With only [DEPLOY_ID] set, the deployment reports it, and the
    configuration mirrors it. *)
Example detects_DEPLOY_ID :
  let this := constructor (Some (mkProcess {["DEPLOY_ID" := "d-42"]} "v24.1.0")) None in
  read (d_deployId (getDeployment this)) = Some "d-42" /\
  read (opt_deployId (options this)) = Some "d-42" /\
  read (d_gitSha (getDeployment this)) = None.
Proof. repeat split. Qed.

(** An explicit [timeout: undefined] overrides the default of the
    constructor; [send] then falls back to 10000 by itself. *)
Example undefined_timeout :
  let this :=
    constructor None
      (Some (mkOptions (given (Some "https://collect.example")) missing missing missing
               (given None) missing missing missing missing)) in
  read (opt_timeout (options this)) = None /\
  effects (send print_integer None (payload_of_options "site-1" pricing_page) None
             silence this) =
    [SetTimeout 10000%float;
     Fetch (send_request None this "https://collect.example"
              (payload_of_options "site-1" pricing_page) Event);
     Abort; ClearTimeout].
Proof. split; reflexivity. Qed.

Example property_bag :
  let this := setProperty "b" (SNumber 2%float) (setProperty "a" (SNumber 1%float) fresh) in
  getProperties this = {["a" := SNumber 1%float; "b" := SNumber 2%float]} /\
  getProperties (clearProperty "a" this) = {["b" := SNumber 2%float]} /\
  getProperties (reset this) = ∅.
Proof. repeat split. Qed.

(** ** The theorems at the sample values *)

Lemma site_websiteId : configured (opt_websiteId (options site)) "site-1".
Proof. split; reflexivity. Defined.

Lemma site_hostUrl : configured (opt_hostUrl (options site)) "https://collect.example".
Proof. split; reflexivity. Defined.

(** [send] on the silent network: a timeout error with the 50 ms of the
    configuration. *)
Example send_silence_times_out :
  outcome (send print_integer node (payload_of_options "site-1" pricing_page) None
             silence site) =
    inl (TimeoutError print_integer 50%float) /\
  error_message (TimeoutError print_integer 50%float) = "Request timed out after 50ms".
Proof. split; reflexivity. Qed.

Lemma collectors_timer_fires_witness :
  (forall request, silence request = TimerFires) /\
  outcome (trackVital lcp silence site) = inl (Thrown_foreign AbortError) /\
  outcome (trackForm signup_start silence site) = inl (Thrown_foreign AbortError) /\
  isTimeoutError (Thrown_foreign AbortError) = false.
Proof.
  destruct (collectors_timer_fires "site-1" "https://collect.example" silence site
              site_websiteId site_hostUrl (fun _ => eq_refl))
    as (Hvital & _ & Hform & _ & Hkind).
  split; [intros request; reflexivity|].
  split; [apply Hvital|]. split; [apply Hform|exact Hkind].
Defined.

Lemma send_not_ok_slips_witness :
  outcome (send print_integer node (payload_of_options "site-1" pricing_page) None
             (answers retry_at_date) site) =
    inl (RateLimitError (Some "Rate limit exceeded") (Some nan)) /\
  outcome (send print_integer node (payload_of_options "site-1" pricing_page) None
             (answers unreadable_503) site) =
    inl (NetworkError "Network request failed: Body is unusable: Body has already been read"
           (Some (TypeError "Body is unusable: Body has already been read"))).
Proof.
  split.
  - apply (proj1 (send_not_ok_slips print_integer node
                    (payload_of_options "site-1" pricing_page) None
                    "https://collect.example" retry_at_date (answers retry_at_date) site
                    site_hostUrl eq_refl eq_refl)
             "Wed, 21 Oct 2015 07:28:00 GMT"); reflexivity.
  - apply (proj2 (send_not_ok_slips print_integer node
                    (payload_of_options "site-1" pricing_page) None
                    "https://collect.example" unreadable_503 (answers unreadable_503) site
                    site_hostUrl eq_refl eq_refl)
             (SyntaxError "Unexpected token '<' is not valid JSON")
             "Body is unusable: Body has already been read");
      [vm_compute; discriminate|reflexivity|reflexivity].
Defined.

(** The header [Retry-After: 30] comes through as the number 30. *)
Example send_retry_after_30 :
  outcome (send print_integer node (payload_of_options "site-1" pricing_page) None
             (answers retry_in_30) site) =
    inl (RateLimitError (Some "Rate limit exceeded") (Some 30%float)).
Proof. reflexivity. Qed.

Lemma trackVital_not_ok_witness :
  ok retry_in_30 = false /\
  exists e,
    outcome (trackVital lcp (answers retry_in_30) site) = inl e /\
    e = ApiError "HTTP error! status: 429" 429 (Some retry_in_30) None /\
    isApiError e = true /\ isRateLimitError e = false /\
    (base_of e ≫= statusCode) = Some 429.
Proof.
  split; [reflexivity|].
  exact (trackVital_not_ok lcp "site-1" "https://collect.example" retry_in_30
           (answers retry_in_30) site site_websiteId site_hostUrl eq_refl eq_refl).
Defined.

Lemma setDeployment_empty_value_witness :
  truthy truthy_string (Some EmptyString) = false /\
  read (d_gitSha (deploymentInfo (setDeployment blank_sha site))) = Some EmptyString /\
  read (opt_gitSha (options (setDeployment blank_sha site))) = Some "abc123".
Proof.
  split; [reflexivity|].
  exact (proj1 (proj2 (setDeployment_empty_value blank_sha site (Some EmptyString) eq_refl))
           eq_refl).
Defined.

Lemma fresh_hostUrl : unset (opt_hostUrl (options fresh)).
Proof. reflexivity. Defined.

Lemma fresh_websiteId : unset (opt_websiteId (options fresh)).
Proof. reflexivity. Defined.

(** C4 as stated fails on the default instance, which has neither
    [hostUrl] nor [websiteId]: [trackVital] stops at its first guard, with
    the configuration error that names [websiteId]. *)
Lemma fresh_trackVital_names_websiteId :
  read (opt_hostUrl (options fresh)) = None /\
  outcome (trackVital lcp silence fresh) = inl websiteId_required /\
  outcome (trackVital lcp silence fresh) <> inl hostUrl_required /\
  error_message websiteId_required =
    "websiteId is required. Call init() with websiteId first.: 'websiteId' is required".
Proof.
  split; [reflexivity|]. split; [reflexivity|]. split; [|reflexivity].
  vm_compute. discriminate.
Qed.

Lemma hostUrl_unset_fails_fast_witness :
  unset (opt_hostUrl (options fresh)) /\
  send print_integer node (payload_of_options "site-1" pricing_page) None silence fresh =
    failed_fast fresh hostUrl_required /\
  trackFormBatch (mkFormBatch [signup_start]) silence fresh =
    failed_fast fresh websiteId_required /\
  trackVital lcp silence hostless = failed_fast hostless hostUrl_required.
Proof.
  destruct (hostUrl_unset_fails_fast print_integer node silence fresh fresh_hostUrl)
    as (Hsend & _ & Hboth & _).
  destruct (Hboth fresh_websiteId) as (_ & _ & _ & Hbatch).
  assert (Hhost : unset (opt_hostUrl (options hostless))) by reflexivity.
  assert (Hsite : configured (opt_websiteId (options hostless)) "site-1")
    by (split; reflexivity).
  destruct (hostUrl_unset_fails_fast print_integer node silence hostless Hhost)
    as (_ & Hcollectors & _).
  destruct (Hcollectors "site-1" Hsite) as (Hvital & _).
  split; [exact fresh_hostUrl|]. split; [exact (Hsend _ None)|].
  split; [exact (Hbatch _)|exact (Hvital lcp)].
Defined.

Lemma tracking_fails_fast_witness :
  identify print_integer node (Some pro_user) silence fresh =
    failed_fast fresh websiteId_required /\
  trackVitalsBatch (mkVitalsBatch [lcp] missing missing) silence fresh =
    failed_fast fresh websiteId_required /\
  trackPageView print_integer node (name_only "click") silence site =
    failed_fast site
      (ValidationError "url is required for page view tracking" (Some "url") None) /\
  trackEvent print_integer node unnamed silence site =
    failed_fast site
      (ValidationError "name is required for event tracking" (Some "name") None).
Proof.
  destruct (tracking_fails_fast print_integer node silence fresh) as (Hunset & _).
  destruct (Hunset fresh_websiteId) as (_ & _ & _ & Hidentify & _ & Hbatch & _).
  destruct (tracking_fails_fast print_integer node silence site) as (_ & Hurl & Hname & _).
  split; [exact (Hidentify _)|]. split; [exact (Hbatch _)|].
  split; [exact (Hurl "site-1" (name_only "click") site_websiteId eq_refl)|].
  exact (Hname "site-1" unnamed site_websiteId eq_refl).
Defined.

Lemma track_payloads_witness :
  track print_integer node (EventName "click") None (answers accepted) site =
    track print_integer node (EventOptions (name_only "click")) None (answers accepted) site /\
  on_wire (p_data (track_payload "site-1" (EventName "click") None)) = false /\
  read (p_data (track_payload "site-1" (EventOptions purchase)
                  (Some {["plan" := SString "team"]}))) =
    Some {["plan" := SString "team"]} /\
  read (p_data (track_payload "site-1" (EventOptions purchase) None)) =
    Some {["plan" := SString "pro"]}.
Proof.
  destruct (track_payloads print_integer node "site-1" (answers accepted) site site_websiteId)
    as (Hname & Hdata & Hembedded).
  destruct (Hname "click") as (_ & _ & _ & Hwire & Hsame).
  split; [exact Hsame|]. split; [exact Hwire|].
  split; [exact (proj2 (Hdata purchase _))|exact (proj2 (Hembedded purchase))].
Defined.

(** C9 as stated fails on an empty name: the payload goes out with a name
    field, holding the empty string. *)
Lemma track_empty_name_on_wire :
  read (t_name unnamed) = Some EmptyString /\
  dispatched (effects (track print_integer node (EventOptions unnamed) None
                         (answers accepted) site)) =
    [SendBody Event
       (mkPayload "site-1" missing missing missing missing missing missing
          (given (Some "/pricing")) (given (Some EmptyString)) (given None))] /\
  on_wire (given (Some EmptyString)) = true.
Proof. split; [reflexivity|]. split; reflexivity. Qed.

Lemma track_without_name_witness :
  truthy truthy_string (read (t_name pricing_page)) = false /\
  p_name (track_payload "site-1" (EventOptions pricing_page) None) = missing /\
  on_wire (p_name (track_payload "site-1" (EventOptions pricing_page) None)) = false /\
  on_wire (p_name (track_payload "site-1" (EventOptions unnamed) None)) = true /\
  dispatched (effects (track print_integer node (EventOptions pricing_page) None
                         (answers accepted) site)) =
    [SendBody Event (track_payload "site-1" (EventOptions pricing_page) None)].
Proof.
  destruct (track_without_name print_integer node "site-1" pricing_page None
              (answers accepted) site site_websiteId eq_refl)
    as (_ & Hname & Habsent & _ & _ & Hsent & _).
  destruct (track_without_name print_integer node "site-1" unnamed None
              (answers accepted) site site_websiteId eq_refl)
    as (_ & _ & _ & Hempty & _).
  split; [reflexivity|]. split; [exact Hname|]. split; [exact (Habsent eq_refl)|].
  split; [exact (Hempty eq_refl)|].
  exact (Hsent "https://collect.example" site_hostUrl).
Defined.

(** C8 as stated fails on a [sessionId] that is present and empty: the
    session of the payload is the configured one, not the argument's. *)
Lemma identify_blank_session_uses_configured :
  id_sessionId blank_session = given (Some EmptyString) /\
  dispatched (effects (identify print_integer node (Some blank_session)
                         (answers accepted) site)) =
    [SendBody Identify
       (mkPayload "site-1" (given (Some "visit-7")) missing missing missing missing
          missing missing missing
          (given (Some {["sessionId" := SString EmptyString]})))] /\
  Some "visit-7" <> read (id_sessionId blank_session).
Proof. split; [reflexivity|]. split; [reflexivity|discriminate]. Qed.

Lemma identify_merges_and_sends_witness :
  properties (final (identify print_integer node (Some pro_user) (answers accepted) site)) =
    {["sessionId" := SString "s1"; "plan" := SString "pro"]} /\
  dispatched (effects (identify print_integer node (Some pro_user) (answers accepted) site)) =
    [SendBody Identify
       (mkPayload "site-1" (given (Some "s1")) missing missing missing missing
          missing missing missing
          (given (Some {["sessionId" := SString "s1"; "plan" := SString "pro"]})))] /\
  read (p_session (identify_payload "site-1" blank_session site ∅)) = Some "visit-7" /\
  options (final (identify print_integer node (Some pro_user) (answers accepted) site)) =
    options site.
Proof.
  destruct (identify_merges_and_sends print_integer node (Some pro_user) "site-1"
              (answers accepted) site site_websiteId)
    as (_ & _ & _ & _ & _ & Hoptions & Hsent).
  destruct (identify_merges_and_sends print_integer node (Some blank_session) "site-1"
              (answers accepted) site site_websiteId)
    as (_ & _ & _ & _ & Hblank & _).
  split; [reflexivity|].
  split; [exact (Hsent "https://collect.example" site_hostUrl)|].
  split; [exact (Hblank eq_refl)|exact Hoptions].
Defined.

Lemma identify_stores_sessionId_witness :
  properties (final (identify print_integer node (Some pro_user) (answers accepted) site))
    !! "sessionId" = Some (SString "s1") /\
  is_Some
    (properties
       (final
          (identify print_integer node None silence
             (after_all print_integer node
                [CallSetProperty "plan" (SString "team");
                 CallTrack (EventName "click") None (answers accepted);
                 CallClearProperty "plan"]
                (final (identify print_integer node (Some pro_user) (answers accepted)
                          site)))))
     !! "sessionId").
Proof.
  destruct (identify_stores_sessionId print_integer node pro_user (Some "s1") "site-1"
              (answers accepted) site site_websiteId eq_refl)
    as (Hstored & _ & _ & Hlater).
  split; [exact Hstored|].
  apply (Hlater [CallSetProperty "plan" (SString "team");
                 CallTrack (EventName "click") None (answers accepted);
                 CallClearProperty "plan"] None "site-1" silence).
  - repeat constructor.
  - split; reflexivity.
Defined.

(** ** The further theorems at the sample values *)

Lemma send_times_out_witness :
  exists base,
    outcome (send print_integer node (payload_of_options "site-1" pricing_page) None
               silence site) = inl (Timeout base 50%float) /\
    code base = "TIMEOUT_ERROR".
Proof.
  destruct (send_times_out print_integer node (payload_of_options "site-1" pricing_page)
              None "https://collect.example" silence site site_hostUrl eq_refl)
    as (timeout & base & Hrun & Hcode & _ & _ & Hconfigured & _).
  exists base. rewrite Hrun, <- (Hconfigured 50%float eq_refl).
  split; [reflexivity|exact Hcode].
Defined.


Lemma send_returns_ok_response_witness :
  ok accepted = true /\
  outcome (send print_integer node (payload_of_options "site-1" pricing_page) None
             (answers accepted) site) = inr accepted.
Proof.
  split; [reflexivity|].
  exact (proj1 (send_returns_ok_response print_integer node
                  (payload_of_options "site-1" pricing_page) None
                  "https://collect.example" accepted (answers accepted) site
                  site_hostUrl eq_refl eq_refl)).
Defined.

Lemma send_rate_limit_witness :
  exists base,
    outcome (send print_integer node (payload_of_options "site-1" pricing_page) None
               (answers retry_in_30) site) = inl (RateLimit base (Some 30%float)) /\
    statusCode base = Some 429.
Proof.
  destruct (send_rate_limit print_integer node (payload_of_options "site-1" pricing_page)
              None "https://collect.example" retry_in_30 (answers retry_in_30) site
              site_hostUrl eq_refl eq_refl eq_refl)
    as (base & retryAfter & Hout & Hstatus & _ & _ & Hparsed & _).
  exists base. rewrite Hout, (Hparsed "30" false 30 eq_refl eq_refl).
  split; [reflexivity|exact Hstatus].
Defined.

Lemma send_api_error_witness :
  outcome (send print_integer node (payload_of_options "site-1" pricing_page) None
             (answers failed_500) site) =
    inl (ApiError "HTTP error! status: 500" 500 (Some failed_500)
           (Some (JObj [("error", JStr "boom")]))) /\
  outcome (send print_integer node (payload_of_options "site-1" pricing_page) None
             (answers gone_404) site) =
    inl (ApiError "HTTP error! status: 404" 404 (Some gone_404) (Some (JStr "Not Found"))).
Proof.
  assert (H500 : status failed_500 <> 429) by (cbv; discriminate).
  assert (H404 : status gone_404 <> 429) by (cbv; discriminate).
  split.
  - exact (proj1 (send_api_error print_integer node
                    (payload_of_options "site-1" pricing_page) None
                    "https://collect.example" failed_500 (answers failed_500) site
                    site_hostUrl eq_refl eq_refl H500) _ eq_refl).
  - exact (proj2 (send_api_error print_integer node
                    (payload_of_options "site-1" pricing_page) None
                    "https://collect.example" gone_404 (answers gone_404) site
                    site_hostUrl eq_refl eq_refl H404) _ _ eq_refl eq_refl).
Defined.

Lemma send_fetch_rejects_witness :
  outcome (send print_integer node (payload_of_options "site-1" pricing_page) None
             refused site) =
    inl (NetworkError "Network request failed: fetch failed"
           (Some (TypeError "fetch failed"))) /\
  outcome (send print_integer node (payload_of_options "site-1" pricing_page) None
             (fun _ => Rejects stray) site) = inl (Thrown_foreign stray).
Proof.
  split.
  - exact (proj1 (send_fetch_rejects print_integer node
                    (payload_of_options "site-1" pricing_page) None
                    "https://collect.example" (TypeError "fetch failed") refused site
                    site_hostUrl eq_refl eq_refl) eq_refl).
  - exact (proj2 (send_fetch_rejects print_integer node
                    (payload_of_options "site-1" pricing_page) None
                    "https://collect.example" stray (fun _ => Rejects stray) site
                    site_hostUrl eq_refl eq_refl) eq_refl).
Defined.


Lemma send_throws_witness :
  thrown_by_send (TimeoutError print_integer 50%float) = true /\
  isValidationError (TimeoutError print_integer 50%float) = false.
Proof.
  destruct (send_throws print_integer node (payload_of_options "site-1" pricing_page) None
              (TimeoutError print_integer 50%float) silence site eq_refl)
    as (Hkind & Hvalidation & _).
  split; [exact Hkind|exact Hvalidation].
Defined.

Lemma collectors_clear_timer_witness :
  one_request (effects (trackVital lcp (answers accepted) site)) 50%float
    (mkRequest "https://collect.example/api/collect/vitals" "POST"
       [("Content-Type", "application/json")] (VitalBody "site-1" (vital_payload lcp))) /\
  one_request (effects (trackFormBatch (mkFormBatch [signup_start]) silence site)) 50%float
    (mkRequest "https://collect.example/api/collect/forms" "POST"
       [("Content-Type", "application/json")] (FormBatchBody "site-1" [signup_start])).
Proof.
  destruct (collectors_clear_timer "site-1" "https://collect.example" (answers accepted) site
              site_websiteId site_hostUrl) as (Hvital & _).
  destruct (collectors_clear_timer "site-1" "https://collect.example" silence site
              site_websiteId site_hostUrl) as (_ & _ & _ & Hforms).
  split; [exact (Hvital lcp)|exact (Hforms (mkFormBatch [signup_start]))].
Defined.

Lemma collectors_return_ok_response_witness :
  outcome (trackVital lcp (answers accepted) site) = inr accepted /\
  outcome (trackForm signup_start (answers accepted) site) = inr accepted.
Proof.
  destruct (collectors_return_ok_response "site-1" "https://collect.example" accepted
              (answers accepted) site site_websiteId site_hostUrl (fun _ => eq_refl) eq_refl)
    as (Hvital & _ & Hform & _).
  split; [exact (proj1 (Hvital lcp))|exact (proj1 (Hform signup_start))].
Defined.

Lemma collector_timeout_rule_witness :
  collector_timeout hasty = 10000%float /\
  collector_timeout site = 50%float /\
  exists rest,
    effects (send print_integer node (payload_of_options "site-1" pricing_page) None
               silence hasty) = SetTimeout 0%float :: rest.
Proof.
  destruct (collector_timeout_rule print_integer node hasty) as (_ & _ & Hdefault & _ & Hsend).
  destruct (collector_timeout_rule print_integer node site) as (_ & Hconfigured & _).
  split; [exact (Hdefault eq_refl)|]. split; [exact (Hconfigured 50%float eq_refl eq_refl)|].
  apply (Hsend _ None silence "https://collect.example" 0%float); [split|]; reflexivity.
Defined.

Lemma trackVitalsBatch_entries_witness :
  exists entries,
    dispatched (effects (trackVitalsBatch home_vitals (answers accepted) site)) =
      [VitalsBatchBody "site-1" entries] /\
    length entries = 2%nat /\
    Forall2 (batched home_vitals) [lcp; cls_on_cart] entries.
Proof.
  exact (trackVitalsBatch_entries home_vitals "site-1" "https://collect.example"
           (answers accepted) site site_websiteId site_hostUrl).
Defined.

Lemma init_merges_witness :
  init no_options site = site /\
  read (opt_hostUrl (options (init host_undefined site))) = None /\
  opt_timeout (options (init host_undefined site)) = given (Some 50%float).
Proof.
  destruct (init_merges host_undefined no_options site)
    as (Hnothing & _ & _ & _ & _ & Hgiven & Hkept & _).
  split; [exact Hnothing|]. split; [exact (Hgiven None eq_refl)|exact (Hkept eq_refl)].
Defined.

Lemma init_can_unset_hostUrl_witness :
  send print_integer node (payload_of_options "site-1" pricing_page) None (answers accepted)
    (init host_undefined site) =
  failed_fast (init host_undefined site) hostUrl_required.
Proof.
  exact (init_can_unset_hostUrl print_integer node host_undefined None
           (payload_of_options "site-1" pricing_page) None (answers accepted) site
           eq_refl eq_refl).
Defined.

Lemma constructor_defaults_witness :
  read (opt_deployId (options (constructor deployed (Some manual_deploy)))) = Some "manual" /\
  read (d_deployId (getDeployment (constructor deployed (Some manual_deploy)))) =
    Some "d-42" /\
  read (opt_timeout (options (constructor deployed (Some manual_deploy)))) =
    Some 10000%float /\
  getEndpointPath (constructor deployed (Some manual_deploy)) = "/api/send".
Proof.
  destruct (constructor_defaults deployed (Some manual_deploy))
    as (_ & _ & _ & Htimeout & Hpath & Hexplicit & _).
  destruct (Hexplicit (Some "manual") eq_refl) as [Hoption Hrecord].
  split; [exact Hoption|]. split; [now rewrite Hrecord|].
  split; [exact (Htimeout eq_refl)|exact (Hpath eq_refl)].
Defined.

Lemma property_round_trip_witness :
  getProperties (setProperty "plan" (SString "pro") site) !! "plan" = Some (SString "pro") /\
  clearProperty "plan" (setProperty "plan" (SString "pro") site) = site.
Proof.
  assert (Hkey : "plan" <> "__proto__") by discriminate.
  destruct (property_round_trip "plan" (SString "pro") site Hkey)
    as (Hread & _ & _ & _ & Hback & _).
  split; [exact Hread|exact (proj1 (Hback eq_refl))].
Defined.

Lemma setProperties_merges_witness :
  setProperties {["plan" := SString "pro"]} site = setProperty "plan" (SString "pro") site /\
  setProperties ∅ site = site.
Proof.
  assert (Hkey : "plan" <> "__proto__") by discriminate.
  destruct (setProperties_merges ∅ site) as (_ & Hnothing & Hone & _).
  split; [exact (Hone "plan" (SString "pro") Hkey)|exact Hnothing].
Defined.

Lemma identify_merges_before_send_fails_witness :
  identify print_integer node (Some pro_user) (answers accepted) hostless =
    mkRun (setProperties {["sessionId" := SString "s1"; "plan" := SString "pro"]} hostless)
      [] (inl hostUrl_required).
Proof.
  assert (Hsite : configured (opt_websiteId (options hostless)) "site-1")
    by (split; reflexivity).
  exact (identify_merges_before_send_fails print_integer node (Some pro_user) "site-1"
           (answers accepted) hostless Hsite eq_refl).
Defined.

Lemma identify_like_setProperties_witness :
  final (identify print_integer node (Some pro_user) silence site) =
    setProperties (identify_entries pro_user) site /\
  final (identify print_integer node None silence site) = site.
Proof.
  destruct (identify_like_setProperties print_integer node (Some pro_user) "site-1"
              silence site site_websiteId) as (Hmerge & Hnothing & _).
  split; [exact Hmerge|exact Hnothing].
Defined.

Lemma identify_session_this_call_only_witness :
  exists payload,
    identify print_integer node (Some team_user) silence
      (final (identify print_integer node (Some pro_user) (answers accepted) site)) =
    send print_integer node payload (Some Identify) silence
      (identified team_user
         (final (identify print_integer node (Some pro_user) (answers accepted) site))) /\
    read (p_session payload) = Some "visit-7" /\
    (exists bag, read (p_data payload) = Some bag /\
                 bag !! "sessionId" = Some (SString "s1")).
Proof.
  exact (identify_session_this_call_only print_integer node pro_user team_user "s1" "site-1"
           (answers accepted) silence site site_websiteId eq_refl eq_refl).
Defined.

Lemma track_name_is_trackEvent_witness :
  track print_integer node (EventName "purchase") (Some {["plan" := SString "pro"]})
    (answers accepted) site =
  trackEvent print_integer node (name_and_data "purchase" {["plan" := SString "pro"]})
    (answers accepted) site.
Proof.
  exact (track_name_is_trackEvent print_integer node "purchase" {["plan" := SString "pro"]}
           (answers accepted) site eq_refl).
Defined.

Lemma page_view_and_event_payload_witness :
  trackPageView print_integer node purchase (answers accepted) site =
    trackEvent print_integer node purchase (answers accepted) site /\
  dispatched (effects (trackPageView print_integer node purchase (answers accepted) site)) =
    [SendBody Event
       (mkPayload "site-1" missing missing missing missing missing missing
          (given (Some "/pricing")) (given (Some "purchase"))
          (given (Some {["plan" := SString "pro"]})))].
Proof.
  destruct (page_view_and_event_payload print_integer node purchase "site-1"
              (answers accepted) site site_websiteId eq_refl eq_refl) as (Hsame & Hsent).
  split; [exact Hsame|exact (Hsent "https://collect.example" site_hostUrl)].
Defined.

Lemma deployment_copies_in_sync_witness :
  in_sync
    (after_all print_integer deployed
       [CallSetDeployment new_sha;
        CallTrack (EventName "click") None silence;
        CallSetProperty "plan" (SString "pro")]
       (constructor deployed None)).
Proof.
  assert (Hfilled : left_out_or_filled (given (Some "def456")))
    by (right; eexists; split; reflexivity).
  assert (Hout : left_out_or_filled (@missing string)) by (left; reflexivity).
  refine (proj2 (deployment_copies_in_sync print_integer deployed _ _)).
  constructor; [split; [exact Hout|split; [exact Hfilled|exact Hout]]|].
  constructor; [exact I|]. constructor; [exact I|]. constructor.
Defined.

Lemma send_api_error_origin_witness :
  outcome (send print_integer node (payload_of_options "site-1" pricing_page) None
             (answers failed_500) site) =
    inl (ApiError "HTTP error! status: 500" 500 (Some failed_500)
           (Some (JObj [("error", JStr "boom")]))) /\
  exists response,
    Some failed_500 = Some response /\ ok response = false /\ status response <> 429.
Proof.
  split; [reflexivity|].
  destruct (send_api_error_origin print_integer node
              (payload_of_options "site-1" pricing_page) None _ (Some failed_500)
              (Some (JObj [("error", JStr "boom")])) (answers failed_500) site eq_refl)
    as (response & Hcarried & Hok & Hstatus & _).
  exists response. split; [exact Hcarried|]. split; [exact Hok|exact Hstatus].
Defined.
